(** * County-level tidal flooding: gauge imputation pipeline

    A shallow embedding of

    - [src/imputation/main.py]: [process_region] and
      [ImputationManager.save_imputation_structure] / [ImputationManager.run];
    - [src/preprocessing/coastal_points.py]: [get_region_projection],
      [create_reference_points] and the display name that [process_region]
      gives a region.

    Python values are embedded as a small tagged union, dictionaries with
    string keys as [gmap string _], the literal dictionaries that become
    DataFrame rows as association lists (their key order is the column
    order), floats as exact rationals ([Qc]), and the two effects of the
    code, logging / file writing and exceptions, through one state and
    exception monad. *)

From Stdlib Require Import QArith Qcanon Qround Ascii.
From stdpp Require Import numbers gmap strings fin_maps list.

Open Scope Qc_scope.
Open Scope string_scope.
Open Scope list_scope.

(* ===================================================================== *)
(** ** Python values and exceptions *)
(* ===================================================================== *)

(** The values that occur in the YAML region configuration and in the
    cells of the mapping table.  Floats are exact rationals; a YAML list
    is a list of strings (the only lists the code reads are the
    [state_codes]). *)
Inductive PyVal : Type :=
  | VNone
  | VBool (b : bool)
  | VInt (z : Z)
  | VFloat (q : Qc)
  | VStr (s : string)
  | VList (l : list string).

#[global] Instance PyVal_eq_dec : EqDecision PyVal.
Proof. solve_decision. Defined.

(** Python truthiness, as used by [if sub_region:]. *)
Definition truthy (v : PyVal) : bool :=
  match v with
  | VNone => false
  | VBool b => b
  | VInt z => negb (Z.eqb z 0)
  | VFloat q => negb (bool_decide (q = 0))
  | VStr s => negb (bool_decide (s = ""))
  | VList l => negb (bool_decide (l = []))
  end.

(** Instances of Python's [Exception] class, which is what the two
    [except Exception] handlers of [main.py] catch. *)
Inductive exn : Type :=
  | KeyError (key : string)
  | TypeError (msg : string)
  | ValidationError (msg : string)
  | RuntimeError (msg : string).

#[global] Instance exn_eq_dec : EqDecision exn.
Proof. solve_decision. Defined.

Inductive Result (A : Type) : Type :=
  | Ok (a : A)
  | Raise (e : exn).
Arguments Ok {A} a.
Arguments Raise {A} e.

Definition is_ok {A} (r : Result A) : bool :=
  match r with Ok _ => true | Raise _ => false end.

(* ===================================================================== *)
(** ** State and exception monad *)
(* ===================================================================== *)

(** A computation reads and updates a state [S] (the log of a worker, or
    the world of the orchestrating process) and either returns or raises.
    The state survives a raise: what was logged or written before the
    exception stays logged or written. *)
Module Eff.

Definition M (S A : Type) : Type := S -> Result A * S.

Definition ret {S A} (a : A) : M S A := fun s => (Ok a, s).

Definition bind {S A B} (c : M S A) (k : A -> M S B) : M S B :=
  fun s =>
    match c s with
    | (Ok a, s') => k a s'
    | (Raise e, s') => (Raise e, s')
    end.

Definition raise {S A} (e : exn) : M S A := fun s => (Raise e, s).

(** A pure computation that may raise. *)
Definition lift {S A} (r : Result A) : M S A := fun s => (r, s).

(** [try: c  except Exception as e: h e] *)
Definition try_except {S A} (c : M S A) (h : exn -> M S A) : M S A :=
  fun s =>
    match c s with
    | (Ok a, s') => (Ok a, s')
    | (Raise e, s') => h e s'
    end.

Definition modify {S} (f : S -> S) : M S unit := fun s => (Ok tt, f s).

(** [for x in xs: body x] *)
Fixpoint for_each {S A} (xs : list A) (body : A -> M S unit) : M S unit :=
  match xs with
  | [] => ret tt
  | x :: rest => bind (body x) (fun _ => for_each rest body)
  end.

End Eff.

Declare Scope eff_scope.
Delimit Scope eff_scope with eff.
Notation "'let*' x ':=' c 'in' k" :=
  (Eff.bind c (fun x => k))
  (at level 10, x name, c at level 100, k at level 200) : eff_scope.
Notation "c '>>' k" :=
  (Eff.bind c (fun _ => k))
  (at level 100, k at level 200, right associativity) : eff_scope.
Open Scope eff_scope.

(** The error monad alone, for pure code that may raise. *)
Definition rbind {A B} (r : Result A) (k : A -> Result B) : Result B :=
  match r with
  | Ok a => k a
  | Raise e => Raise e
  end.

(* ===================================================================== *)
(** ** Logging *)
(* ===================================================================== *)

Inductive Level : Type := INFO | WARNING | ERROR.

#[global] Instance Level_eq_dec : EqDecision Level.
Proof. solve_decision. Defined.

(** One constructor per [logger] call of the sources; the payload is what
    the f-string interpolates. *)
Inductive LogMsg : Type :=
  (* imputation/main.py, process_region *)
  | MsgProcessingRegion (region : string)
  | MsgStatesIncluded (codes : string)
  | MsgNoMappings (region : string)
  | MsgRegionSummary (region : string)
  | MsgTotalCounties (n : nat)
  | MsgTotalStations (n : nat)
  | MsgTotalMappings (n : nat)
  | MsgNote (text : string)
  | MsgSubregionDetails
  | MsgSubregion (sub_region : PyVal)
  | MsgAvailableStations (n : nat)
  | MsgCountiesWithMappings (n : nat)
  | MsgAverageDistance (mean : option Qc)
  | MsgAverageWeight (mean : option Qc)
  | MsgErrorProcessing (region : string) (e : exn)
  (* imputation/main.py, ImputationManager *)
  | MsgLoadFailed
  | MsgNoData (region : string)
  | MsgSaved (region : string) (path : string)
  (* preprocessing/coastal_points.py, get_region_projection *)
  | MsgConfigProjection (region_name : string) (proj : PyVal)
  | MsgAlaskaProjection (proj : PyVal)
  | MsgWestProjection (region_name : string) (proj : PyVal)
  | MsgDefaultProjection (region_name : string) (proj : PyVal).

#[global] Instance LogMsg_eq_dec : EqDecision LogMsg.
Proof. solve_decision. Defined.

Definition LogEntry : Type := Level * LogMsg.
Definition Log : Type := list LogEntry.

(** [logger.<level>(msg)] in a process whose whole state is its log. *)
Definition log (lvl : Level) (msg : LogMsg) : Eff.M Log unit :=
  Eff.modify (fun l => l ++ [(lvl, msg)]).

(* ===================================================================== *)
(** ** Dictionaries and a few built-ins *)
(* ===================================================================== *)

(** [d[key]]: raises [KeyError] when the key is absent. *)
Definition dict_get (d : gmap string PyVal) (key : string) : Result PyVal :=
  match d !! key with
  | Some v => Ok v
  | None => Raise (KeyError key)
  end.

(** [key in d] *)
Definition dict_in (key : string) (d : gmap string PyVal) : bool :=
  bool_decide (is_Some (d !! key)).

Fixpoint chars (s : string) : list string :=
  match s with
  | EmptyString => []
  | String c rest => String c EmptyString :: chars rest
  end.

(** [sep.join(v)]: [v] must be an iterable of strings.  A list of strings
    is joined; a string is an iterable of its characters; the other values
    of [PyVal] are not iterable and raise [TypeError]. *)
Definition py_join (sep : string) (v : PyVal) : Result string :=
  match v with
  | VList l => Ok (String.concat sep l)
  | VStr s => Ok (String.concat sep (chars s))
  | _ => Raise (TypeError "can only join an iterable")
  end.

(* ===================================================================== *)
(** ** Data model of the mappings *)
(* ===================================================================== *)

(** Modelled from the spec: the entries of a RawMapping's candidate list,
    which [spatial_ops.NearestGaugeFinder] (not among the sources)
    produces: station_id, station_name, an optional sub_region label and
    distance_meters. *)
Record Gauge : Type := {
  station_id : string;
  station_name : string;
  sub_region : option string;
  distance_meters : Qc
}.

(** Modelled from the spec: RawMapping, one per reference point. *)
Record RawMapping : Type := {
  reference_point_id : string;
  county_fips : string;
  mappings : list Gauge
}.

(** Modelled from the spec: a candidate gauge of a WeightedMapping, the
    RawMapping entry plus its [weight]. *)
Record WeightedGauge : Type := {
  gauge : Gauge;
  weight : Qc
}.

(** Modelled from the spec: WeightedMapping. *)
Record WeightedMapping : Type := {
  w_reference_point_id : string;
  w_county_fips : string;
  w_mappings : list WeightedGauge
}.

(* ===================================================================== *)
(** ** WeightCalculator *)
(* ===================================================================== *)

(** The three constructor arguments that [process_region] passes. *)
Record WeightCalculator : Type := {
  max_distance_meters : Qc;
  power : Z;
  min_weight : Qc
}.

Module WeightCalculator.

(** Modelled from the spec: [weight_calculator.py] is not among the
    sources.  "fails with ValidationError if power <= 0,
    max_distance_meters <= 0, or min_weight not in [0, 1]". *)
Definition validate (wc : WeightCalculator) : Result unit :=
  if bool_decide (power wc <= 0)%Z then
    Raise (ValidationError "power")
  else if bool_decide (max_distance_meters wc <= 0) then
    Raise (ValidationError "max_distance_meters")
  else if bool_decide (0 <= min_weight wc /\ min_weight wc <= 1) then
    Ok tt
  else
    Raise (ValidationError "min_weight").

(** Modelled from the spec: step 3 of the algorithm, "raw weight =
    1 / (distance_meters ** power), with a guard for distance_meters == 0
    -> weight = 1.0". *)
Definition raw_weight (wc : WeightCalculator) (d : Qc) : Qc :=
  if bool_decide (d = 0) then 1
  else / (d ^ Z.to_nat (power wc)).

(** Modelled from the spec: step 4, "clamp every raw weight to be >=
    min_weight (a floor, not a normalization)". *)
Definition clamp (wc : WeightCalculator) (w : Qc) : Qc :=
  if bool_decide (w < min_weight wc) then min_weight wc else w.

Definition gauge_weight (wc : WeightCalculator) (g : Gauge) : WeightedGauge :=
  {| gauge := g; weight := clamp wc (raw_weight wc (distance_meters g)) |}.

(** Modelled from the spec: step 1, "drop any gauge with distance_meters >
    max_distance_meters". *)
Definition within_cutoff (wc : WeightCalculator) (g : Gauge) : bool :=
  bool_decide (distance_meters g <= max_distance_meters wc).

(** Modelled from the spec: one reference point.  Of the two policies
    that step 2 leaves open for a candidate list emptied by the cutoff,
    this is the one the data model and the testable properties of the
    spec fix: beyond-cutoff gauges are excluded, and the reference point
    stays in the output with no candidate (it yields no row). *)
Definition weigh_mapping (wc : WeightCalculator) (m : RawMapping) : WeightedMapping :=
  {| w_reference_point_id := reference_point_id m;
     w_county_fips := county_fips m;
     w_mappings := gauge_weight wc <$> filter (fun g => within_cutoff wc g = true) (mappings m) |}.

(** Modelled from the spec: [calculate_weights(mappings)]. *)
Definition calculate_weights (wc : WeightCalculator) (ms : list RawMapping)
  : Result (list WeightedMapping) :=
  rbind (validate wc) (fun _ => Ok (weigh_mapping wc <$> ms)).

End WeightCalculator.

(* ===================================================================== *)
(** ** The pandas operations that [process_region] uses *)
(* ===================================================================== *)

(** A Python dict literal: keys in the order they are written. *)
Definition PyDict : Type := list (string * PyVal).

Record DataFrame : Type := {
  columns : list string;
  rows : list (list PyVal)
}.

#[global] Instance DataFrame_eq_dec : EqDecision DataFrame.
Proof. solve_decision. Defined.

Fixpoint index_of (name : string) (names : list string) : option nat :=
  match names with
  | [] => None
  | n :: rest => if bool_decide (n = name) then Some 0%nat else S <$> index_of name rest
  end.

Module pd.

(** The cell of a record under a column; a record without the key gives
    a missing value. *)
Definition cell (r : PyDict) (name : string) : PyVal :=
  match list_find (fun kv => kv.1 = name) r with
  | Some (_, kv) => kv.2
  | None => VNone
  end.

(** [pd.DataFrame.from_records(records)] on a list of dicts.  The records
    of [process_region] all come from one dict literal, so the columns
    are the keys of the first record; no record gives a frame with no
    column and no row. *)
Definition from_records (records : list PyDict) : DataFrame :=
  let cols := match records with [] => [] | r :: _ => r.*1 end in
  {| columns := cols;
     rows := (fun r => cell r <$> cols) <$> records |}.

(** [df.empty]: some axis has length 0. *)
Definition empty (df : DataFrame) : bool :=
  bool_decide (columns df = [] \/ rows df = []).

(** [len(df)] *)
Definition len (df : DataFrame) : nat := length (rows df).

(** [df[name]]: the column as a list of cells; [KeyError] when there is
    no such column. *)
Definition col (df : DataFrame) (name : string) : Result (list PyVal) :=
  match index_of name (columns df) with
  | Some i => Ok ((fun row => default VNone (row !! i)) <$> rows df)
  | None => Raise (KeyError name)
  end.

(** [series.unique()]: distinct values in order of appearance, missing
    values included. *)
Fixpoint unique (cells : list PyVal) : list PyVal :=
  match cells with
  | [] => []
  | c :: rest => c :: filter (fun c' => c' <> c) (unique rest)
  end.

(** [series.nunique()]: number of distinct values, missing ones dropped. *)
Definition nunique (cells : list PyVal) : nat :=
  length (unique (filter (fun c => c <> VNone) cells)).

(** [df[df[name] == v]] *)
Definition select (df : DataFrame) (name : string) (v : PyVal) : Result DataFrame :=
  match index_of name (columns df) with
  | Some i =>
      Ok {| columns := columns df;
            rows := filter (fun row => default VNone (row !! i) = v) (rows df) |}
  | None => Raise (KeyError name)
  end.

(** Sum and count of the numeric cells, missing values skipped;
    [TypeError] on a cell that is not a number. *)
Fixpoint sum_count (cells : list PyVal) : Result (Qc * nat) :=
  match cells with
  | [] => Ok (0, 0%nat)
  | c :: rest =>
      rbind (sum_count rest) (fun sc =>
        match c with
        | VFloat q => Ok (q + sc.1, S sc.2)
        | VInt z => Ok (Q2Qc (inject_Z z) + sc.1, S sc.2)
        | VNone => Ok sc
        | _ => Raise (TypeError "could not convert to numeric")
        end)
  end.

(** [series.mean()]: [None] stands for NaN, the mean of no value. *)
Definition mean (cells : list PyVal) : Result (option Qc) :=
  rbind (sum_count cells) (fun sc =>
    match sc.2 with
    | O => Ok None
    | S _ => Ok (Some (sc.1 / Q2Qc (inject_Z (Z.of_nat sc.2))))
    end).

End pd.

(** [a < b] between Python values: strings compare with strings, numbers
    with numbers, anything else raises [TypeError] (in particular [None]
    against a string). *)
Definition py_lt (a b : PyVal) : Result bool :=
  match a, b with
  | VStr s, VStr t => Ok (String.ltb s t)
  | VInt x, VInt y => Ok (Z.ltb x y)
  | VFloat x, VFloat y => Ok (bool_decide (x < y))
  | VInt x, VFloat y => Ok (bool_decide (Q2Qc (inject_Z x) < y))
  | VFloat x, VInt y => Ok (bool_decide (x < Q2Qc (inject_Z y)))
  | _, _ => Raise (TypeError "'<' not supported")
  end.

Fixpoint py_insert (x : PyVal) (sorted : list PyVal) : Result (list PyVal) :=
  match sorted with
  | [] => Ok [x]
  | y :: rest =>
      rbind (py_lt x y) (fun lt =>
        if lt then Ok (x :: y :: rest)
        else rbind (py_insert x rest) (fun rest' => Ok (y :: rest')))
  end.

(** [sorted(values)]: a comparison sort; it raises as soon as a comparison
    does. *)
Fixpoint py_sorted (values : list PyVal) : Result (list PyVal) :=
  match values with
  | [] => Ok []
  | x :: rest => rbind (py_sorted rest) (py_insert x)
  end.

(* ===================================================================== *)
(** ** imputation/main.py: process_region *)
(* ===================================================================== *)

Definition opt_str (o : option string) : PyVal :=
  match o with
  | Some s => VStr s
  | None => VNone
  end.

(** The dict literal of lines 92-102; [region_name] is the value of
    [region_info['name']]. *)
Definition make_record (mapping : WeightedMapping) (region : string)
    (region_name : PyVal) (g : WeightedGauge) : PyDict :=
  [ ("reference_point_id", VStr (w_reference_point_id mapping));
    ("county_fips", VStr (w_county_fips mapping));
    ("region", VStr region);
    ("region_name", region_name);
    ("station_id", VStr (station_id (gauge g)));
    ("station_name", VStr (station_name (gauge g)));
    ("sub_region", opt_str (sub_region (gauge g)));
    ("distance_meters", VFloat (distance_meters (gauge g)));
    ("weight", VFloat (weight g)) ].

(** The inner loop [for gauge in mapping['mappings']: records.append(...)].
    [region_info['name']] is looked up once per appended record. *)
Fixpoint append_gauges (region : string) (region_info : gmap string PyVal)
    (mapping : WeightedMapping) (gauges : list WeightedGauge)
    (records : list PyDict) : Result (list PyDict) :=
  match gauges with
  | [] => Ok records
  | g :: rest =>
      rbind (dict_get region_info "name") (fun region_name =>
        append_gauges region region_info mapping rest
          (records ++ [make_record mapping region region_name g]))
  end.

(** The outer loop [for mapping in weighted_mappings]. *)
Fixpoint append_mappings (region : string) (region_info : gmap string PyVal)
    (weighted_mappings : list WeightedMapping)
    (records : list PyDict) : Result (list PyDict) :=
  match weighted_mappings with
  | [] => Ok records
  | mapping :: rest =>
      rbind (append_gauges region region_info mapping (w_mappings mapping) records)
        (append_mappings region region_info rest)
  end.

(** The body of [for sub_region in sorted(...)], lines 121-133. *)
Definition log_sub_region (df : DataFrame) (sub_region : PyVal) : Eff.M Log unit :=
  if truthy sub_region then
    let* sub_df := Eff.lift (pd.select df "sub_region" sub_region) in
    let* county := Eff.lift (pd.col sub_df "county_fips") in
    let sub_counties := pd.nunique county in
    let* station := Eff.lift (pd.col sub_df "station_id") in
    let sub_stations := pd.nunique station in
    let* distance := Eff.lift (pd.col sub_df "distance_meters") in
    let* avg_distance := Eff.lift (pd.mean distance) in
    let* weights := Eff.lift (pd.col sub_df "weight") in
    let* avg_weight := Eff.lift (pd.mean weights) in
    log INFO (MsgSubregion sub_region) >>
    log INFO (MsgAvailableStations sub_stations) >>
    log INFO (MsgCountiesWithMappings sub_counties) >>
    log INFO (MsgAverageDistance avg_distance) >>
    log INFO (MsgAverageWeight avg_weight) >>
    log INFO (MsgNote "Weights decrease with distance, stations beyond 100km have minimal influence")
  else Eff.ret tt.

(** The statistics block, lines 107-133. *)
Definition log_statistics (region : string) (df : DataFrame) : Eff.M Log unit :=
  if negb (pd.empty df) then
    let* county := Eff.lift (pd.col df "county_fips") in
    let total_counties := pd.nunique county in
    let* station := Eff.lift (pd.col df "station_id") in
    let total_stations := pd.nunique station in
    let total_mappings := pd.len df in
    log INFO (MsgRegionSummary region) >>
    log INFO (MsgTotalCounties total_counties) >>
    log INFO (MsgTotalStations total_stations) >>
    log INFO (MsgTotalMappings total_mappings) >>
    log INFO (MsgNote "Each county is considered for all subregions, with weights determined by distance") >>
    log INFO MsgSubregionDetails >>
    let* sub_regions := Eff.lift (pd.col df "sub_region") in
    let* ordered := Eff.lift (py_sorted (pd.unique sub_regions)) in
    Eff.for_each ordered (log_sub_region df)
  else Eff.ret tt.

Section Imputation.

(** What [main.py] imports and the sources do not contain: GeoDataFrames,
    of which the code only reads [.empty], and
    [spatial_ops.NearestGaugeFinder], its constructor (applied to the
    constant [REGION_CONFIG]) and its [find_nearest]. *)
Variable GeoDataFrame : Type.
Variable gdf_empty : GeoDataFrame -> bool.
Variable GaugeFinder : Type.
Variable NearestGaugeFinder_init : Result GaugeFinder.
Variable find_nearest :
  GaugeFinder -> GeoDataFrame -> GeoDataFrame -> string -> Result (list RawMapping).

(** "Initialize components for this region", lines 66-72: the
    [WeightCalculator(...)] call, as a function of the four arguments of
    [process_region] that are in scope where it is written. *)
Definition init_weight_calculator (region : string)
    (region_info : gmap string PyVal)
    (reference_points gauge_stations : GeoDataFrame) : WeightCalculator :=
  {| max_distance_meters := Q2Qc 100000;  (* 100km max distance *)
     power := 2;                          (* inverse distance power *)
     min_weight := Q2Qc (1 # 10) |}.

(** The body of the [try], lines 63-135. *)
Definition process_region_try (region : string) (region_info : gmap string PyVal)
    (reference_points gauge_stations : GeoDataFrame)
  : Eff.M Log (option DataFrame) :=
  log INFO (MsgProcessingRegion region) >>
  let* state_codes := Eff.lift (dict_get region_info "state_codes") in
  let* joined := Eff.lift (py_join ", " state_codes) in
  log INFO (MsgStatesIncluded joined) >>
  let* gauge_finder := Eff.lift NearestGaugeFinder_init in
  let weight_calculator :=
    init_weight_calculator region region_info reference_points gauge_stations in
  let* mappings :=
    Eff.lift (find_nearest gauge_finder reference_points gauge_stations region) in
  match mappings with
  | [] =>
      log WARNING (MsgNoMappings region) >>
      Eff.ret None
  | _ :: _ =>
      let* weighted_mappings :=
        Eff.lift (WeightCalculator.calculate_weights weight_calculator mappings) in
      let* records :=
        Eff.lift (append_mappings region region_info weighted_mappings []) in
      let df := pd.from_records records in
      log_statistics region df >>
      Eff.ret (Some df)
  end.

(** [process_region]: the [try] and its [except Exception] handler,
    lines 137-139. *)
Definition process_region (region : string) (region_info : gmap string PyVal)
    (reference_points gauge_stations : GeoDataFrame)
  : Eff.M Log (option DataFrame) :=
  Eff.try_except
    (process_region_try region region_info reference_points gauge_stations)
    (fun e =>
       log ERROR (MsgErrorProcessing region e) >>
       Eff.ret None).

(* ===================================================================== *)
(** ** imputation/main.py: ImputationManager *)
(* ===================================================================== *)

(** What the orchestrating process does to the outside: the two calls to
    the data loader, the submission of a task to the pool, its own log
    lines, and a parquet file written with a frame. *)
Inductive Event : Type :=
  | EvLoadReferencePoints
  | EvLoadGaugeStations
  | EvSubmit (region : string)
  | EvLog (lvl : Level) (msg : LogMsg)
  | EvToParquet (path : string) (df : DataFrame).

#[global] Instance Event_eq_dec : EqDecision Event.
Proof. solve_decision. Defined.

(** The state of the orchestrating process: what it did so far, and how
    often it read the clock. *)
Record World : Type := {
  events : list Event;
  clock_reads : nat
}.

Definition emit (ev : Event) : Eff.M World unit :=
  Eff.modify (fun w => {| events := events w ++ [ev]; clock_reads := clock_reads w |}).

Definition wlog (lvl : Level) (msg : LogMsg) : Eff.M World unit :=
  emit (EvLog lvl msg).

(** The fields of [self] that [run] and [save_imputation_structure]
    read.  [region_config] is [config['regions']]: region -> region_info. *)
Record ImputationManager : Type := {
  output_dir : string;
  region_config : gmap string (gmap string PyVal);
  n_processes : nat
}.

(** The environment of a run.  [now n] is the formatted time of the
    [n]-th clock read; [loaded_*] are what the data loader (not among
    the sources) returns; [to_parquet_error df] is the exception, if any,
    with which writing the frame [df] fails; [future_error region] is
    the exception, if any, with which the pool fails the task of
    [region] instead of delivering its return value. *)
Variable now : nat -> string.
Variable loaded_reference_points loaded_gauge_stations : GeoDataFrame.
Variable to_parquet_error : DataFrame -> option exn.
Variable future_error : string -> option exn.

(** [datetime.now().strftime("%Y%m%d_%H%M%S")] *)
Definition datetime_now : Eff.M World string :=
  fun w => (Ok (now (clock_reads w)),
            {| events := events w; clock_reads := S (clock_reads w) |}).

(** [df.to_parquet(output_path)] *)
Definition to_parquet (df : DataFrame) (output_path : string) : Eff.M World unit :=
  match to_parquet_error df with
  | Some e => Eff.raise e
  | None => emit (EvToParquet output_path df)
  end.

(** [self.data_loader.load_reference_points()] and
    [self.data_loader.load_gauge_stations()] *)
Definition load_reference_points : Eff.M World GeoDataFrame :=
  emit EvLoadReferencePoints >> Eff.ret loaded_reference_points.

Definition load_gauge_stations : Eff.M World GeoDataFrame :=
  emit EvLoadGaugeStations >> Eff.ret loaded_gauge_stations.

(** [ImputationManager.save_imputation_structure], lines 193-219.  The
    returned [None] is Python's; a returned path is [Some]. *)
Definition save_imputation_structure (self : ImputationManager)
    (df : option DataFrame) (region : string) : Eff.M World (option string) :=
  match df with
  | None =>
      wlog WARNING (MsgNoData region) >>
      Eff.ret None
  | Some d =>
      if pd.empty d then
        wlog WARNING (MsgNoData region) >>
        Eff.ret None
      else
        let* timestamp := datetime_now in
        let filename :=
          String.append "imputation_structure_"
            (String.append region
               (String.append "_" (String.append timestamp ".parquet"))) in
        let output_path := String.append (output_dir self) (String.append "/" filename) in
        to_parquet d output_path >>
        wlog INFO (MsgSaved region output_path) >>
        Eff.ret (Some output_path)
  end.

(** A submitted task: the region and the region_info it was submitted
    with.  [future_to_region] is the first projection. *)
Definition Future : Type := string * gmap string PyVal.

(** [future.result()]: the exception with which the pool failed the
    task, or else what [process_region] returned in its worker (whose log
    starts empty and stays in the worker). *)
Definition future_result (reference_points gauge_stations : GeoDataFrame)
    (future : Future) : Result (option DataFrame) :=
  match future_error future.1 with
  | Some e => Raise e
  | None => (process_region future.1 future.2 reference_points gauge_stations []).1
  end.

(** One iteration of [for future in as_completed(...)], lines 256-264. *)
Definition collect_one (self : ImputationManager)
    (reference_points gauge_stations : GeoDataFrame)
    (output_files : gmap string string) (future : Future)
  : Eff.M World (gmap string string) :=
  let region := future.1 in
  Eff.try_except
    (let* df := Eff.lift (future_result reference_points gauge_stations future) in
     match df with
     | Some d =>
         let* output_path := save_imputation_structure self (Some d) region in
         match output_path with
         | Some path => Eff.ret (<[region := path]> output_files)
         | None => Eff.ret output_files
         end
     | None => Eff.ret output_files
     end)
    (fun e =>
       wlog ERROR (MsgErrorProcessing region e) >>
       Eff.ret output_files).

(** The collection loop over the futures in their completion order. *)
Fixpoint collect (self : ImputationManager)
    (reference_points gauge_stations : GeoDataFrame)
    (completed : list Future) (output_files : gmap string string)
  : Eff.M World (gmap string string) :=
  match completed with
  | [] => Eff.ret output_files
  | future :: rest =>
      let* output_files' :=
        collect_one self reference_points gauge_stations output_files future in
      collect self reference_points gauge_stations rest output_files'
  end.

(** [ImputationManager.run], lines 221-266.  [as_completed] is the order
    in which the pool completes the submitted futures. *)
Definition run (self : ImputationManager)
    (as_completed : list Future -> list Future)
  : Eff.M World (gmap string string) :=
  let output_files : gmap string string := ∅ in
  let* reference_points := load_reference_points in
  let* gauge_stations := load_gauge_stations in
  if gdf_empty reference_points || gdf_empty gauge_stations then
    wlog ERROR MsgLoadFailed >>
    Eff.ret output_files
  else
    let futures : list Future := map_to_list (region_config self) in
    Eff.for_each futures (fun future => emit (EvSubmit future.1)) >>
    collect self reference_points gauge_stations (as_completed futures) output_files.

(* ===================================================================== *)
(** ** Vocabulary of the properties *)
(* ===================================================================== *)

(** What the gauge finder yields for a region: construction, then
    [find_nearest]. *)
Definition found_mappings (reference_points gauge_stations : GeoDataFrame)
    (region : string) : Result (list RawMapping) :=
  rbind NearestGaugeFinder_init (fun gauge_finder =>
    find_nearest gauge_finder reference_points gauge_stations region).

(** What [run] persists for a future: the frame its worker returned, when
    the pool delivered it, it is not empty and writing it did not fail. *)
Definition artifact (reference_points gauge_stations : GeoDataFrame)
    (future : Future) : option DataFrame :=
  match future_result reference_points gauge_stations future with
  | Ok (Some d) =>
      if pd.empty d then None
      else match to_parquet_error d with
           | Some _ => None
           | None => Some d
           end
  | _ => None
  end.

(** The exception that the collection loop meets for a future, if any:
    the one the pool delivers, or the one of writing the frame. *)
Definition collection_failure (reference_points gauge_stations : GeoDataFrame)
    (future : Future) : option exn :=
  match future_result reference_points gauge_stations future with
  | Raise e => Some e
  | Ok (Some d) => if pd.empty d then None else to_parquet_error d
  | Ok None => None
  end.

End Imputation.

Arguments init_weight_calculator {GeoDataFrame} _ _ _ _.
Arguments process_region_try {GeoDataFrame GaugeFinder} _ _ _ _ _ _ _.
Arguments process_region {GeoDataFrame GaugeFinder} _ _ _ _ _ _ _.
Arguments load_reference_points {GeoDataFrame} _ _.
Arguments load_gauge_stations {GeoDataFrame} _ _.
Arguments future_result {GeoDataFrame GaugeFinder} _ _ _ _ _ _.
Arguments artifact {GeoDataFrame GaugeFinder} _ _ _ _ _ _ _.
Arguments found_mappings {GeoDataFrame GaugeFinder} _ _ _ _ _.
Arguments collection_failure {GeoDataFrame GaugeFinder} _ _ _ _ _ _ _.
Arguments collect_one {GeoDataFrame GaugeFinder} _ _ _ _ _ _ _ _ _ _ _.
Arguments collect {GeoDataFrame GaugeFinder} _ _ _ _ _ _ _ _ _ _ _.
Arguments run {GeoDataFrame} _ {GaugeFinder} _ _ _ _ _ _ _ _ _ _.

(** The (reference point, candidate gauge) pairs of weighted mappings, in
    the order of the two nested loops. *)
Definition pairs (weighted_mappings : list WeightedMapping)
  : list (WeightedMapping * WeightedGauge) :=
  weighted_mappings ≫= (fun m => (fun g => (m, g)) <$> w_mappings m).

Definition MAPPING_COLUMNS : list string :=
  [ "reference_point_id"; "county_fips"; "region"; "region_name"; "station_id";
    "station_name"; "sub_region"; "distance_meters"; "weight" ].

(** The row of the table for one pair. *)
Definition row_of (region : string) (region_name : PyVal)
    (p : WeightedMapping * WeightedGauge) : list PyVal :=
  (make_record p.1 region region_name p.2).*2.

(** The table with one row per pair. *)
Definition frame_of (region : string) (region_name : PyVal)
    (ps : list (WeightedMapping * WeightedGauge)) : DataFrame :=
  {| columns := MAPPING_COLUMNS; rows := row_of region region_name <$> ps |}.

(** The table of weighted mappings: [from_records] of one record per pair
    (with no pair, [region_info] is not read). *)
Definition mapping_table (region : string) (region_info : gmap string PyVal)
    (weighted_mappings : list WeightedMapping) : DataFrame :=
  pd.from_records
    ((fun p => make_record p.1 region (default VNone (region_info !! "name")) p.2)
       <$> pairs weighted_mappings).

(** The sub-region cells of the table, one per pair. *)
Definition sub_region_cells (ps : list (WeightedMapping * WeightedGauge)) : list PyVal :=
  (fun p => opt_str (sub_region (gauge p.2))) <$> ps.

(** The parquet files written so far, with the frame each was written from. *)
Definition written (evs : list Event) : list (string * DataFrame) :=
  omap (fun ev => match ev with EvToParquet path df => Some (path, df) | _ => None end) evs.

(** The events of the collection loop: log lines and written files. *)
Definition collection_event (ev : Event) : Prop :=
  match ev with
  | EvLog _ _ | EvToParquet _ _ => True
  | _ => False
  end.

Definition is_submit (ev : Event) : bool :=
  match ev with EvSubmit _ => true | _ => false end.

Definition is_write (ev : Event) : bool :=
  match ev with EvToParquet _ _ => true | _ => false end.

Definition count_event (ev : Event) (evs : list Event) : nat :=
  length (filter (fun ev' => ev' = ev) evs).

(** A string cell. *)
Definition is_str (v : PyVal) : Prop :=
  match v with VStr _ => True | _ => False end.

(** A computation on a log that only appends to it, and whose result and
    appended lines do not depend on what the log held before. *)
Definition log_oblivious {A} (c : Eff.M Log A) : Prop :=
  exists (r : Result A) (out : Log), forall l, c l = (r, l ++ out).

(* ===================================================================== *)
(** ** preprocessing/coastal_points.py: get_region_projection *)
(* ===================================================================== *)

Module Preprocessing.

Definition ALASKA_ALBERS : string :=
  "+proj=aea +lat_1=55 +lat_2=65 +lat_0=50 +lon_0=-154 +x_0=0 +y_0=0 +ellps=GRS80 +datum=NAD83 +units=m +no_defs".

Definition WEST_COAST_ALBERS : string :=
  "+proj=aea +lat_1=34 +lat_2=45.5 +lat_0=40 +lon_0=-120 +x_0=0 +y_0=0 +ellps=GRS80 +datum=NAD83 +units=m +no_defs".

Definition CONUS_ALBERS : string :=
  "+proj=aea +lat_1=20 +lat_2=60 +lat_0=40 +lon_0=-96 +x_0=0 +y_0=0 +ellps=GRS80 +datum=NAD83 +units=m +no_defs".

(** [get_region_projection], lines 34-66. *)
Definition get_region_projection (region_name : string)
    (region_def : gmap string PyVal) : Eff.M Log PyVal :=
  if dict_in "projection" region_def then
    let* proj := Eff.lift (dict_get region_def "projection") in
    log INFO (MsgConfigProjection region_name proj) >>
    Eff.ret proj
  else if bool_decide (region_name = "alaska") then
    let proj := VStr ALASKA_ALBERS in
    log INFO (MsgAlaskaProjection proj) >>
    Eff.ret proj
  else if bool_decide (region_name ∈ ["west_coast"; "pacific_islands"]) then
    let proj := VStr WEST_COAST_ALBERS in
    log INFO (MsgWestProjection region_name proj) >>
    Eff.ret proj
  else
    let proj := VStr CONUS_ALBERS in
    log INFO (MsgDefaultProjection region_name proj) >>
    Eff.ret proj.

End Preprocessing.

(* ===================================================================== *)
(** ** A small run, for the examples *)
(* ===================================================================== *)

Module Sample.

Definition north_gauge : Gauge :=
  {| station_id := "9414290"; station_name := "San Francisco";
     sub_region := Some "north"; distance_meters := Q2Qc 2 |}.

Definition far_gauge : Gauge :=
  {| station_id := "9410170"; station_name := "San Diego";
     sub_region := Some "south"; distance_meters := Q2Qc 150000 |}.

Definition unlabelled_gauge : Gauge :=
  {| station_id := "9413450"; station_name := "Monterey";
     sub_region := None; distance_meters := Q2Qc 50000 |}.


Definition point (gauges : list Gauge) : RawMapping :=
  {| reference_point_id := "p1"; county_fips := "06075"; mappings := gauges |}.

Definition region_info : gmap string PyVal :=
  <["name" := VStr "West Coast"]> (<["state_codes" := VList ["CA"; "OR"; "WA"]]> ∅).

Definition calculator : WeightCalculator :=
  {| max_distance_meters := Q2Qc 100000; power := 2; min_weight := Q2Qc (1 # 10) |}.

(** The datasets are stood for by their number of rows. *)
Definition gdf_empty (n : nat) : bool := Nat.eqb n 0.

(** A gauge finder that finds, whatever the datasets, one reference
    point on the west coast and none elsewhere. *)
Definition find_nearest (gauges : list Gauge) (_ : unit) (_ _ : nat) (region : string)
  : Result (list RawMapping) :=
  if bool_decide (region = "west_coast") then Ok [point gauges] else Ok [].

Definition manager : ImputationManager :=
  {| output_dir := "output/imputation";
     region_config := <["west_coast" := region_info]> (<["alaska" := region_info]> ∅);
     n_processes := 2 |}.

Definition now (n : nat) : string := "20250101_000000".

Definition no_error {A} (_ : A) : option exn := None.

Definition world : World := {| events := []; clock_reads := 0 |}.

End Sample.


(* ===================================================================== *)
(** ** imputation/main.py: the paths and the log of a run *)
(* ===================================================================== *)

(** The path under which [save_imputation_structure] writes, lines 211-213:
    [self.output_dir / f"imputation_structure_{region}_{timestamp}.parquet"]. *)
Definition artifact_path (output_dir region timestamp : string) : string :=
  String.append output_dir
    (String.append "/"
       (String.append "imputation_structure_"
          (String.append region (String.append "_" (String.append timestamp ".parquet"))))).

(** What the collection loop keeps true, since the world [w0], of the
    result mapping and the world: every entry is the path of its region at
    a clock reading taken since [w0], and since [w0] a file was written
    under that path and logged as saved. *)
Definition saved_since (now : nat -> string) (self : ImputationManager) (w0 : World)
    (output_files : gmap string string) (w : World) : Prop :=
  exists evs,
    events w = events w0 ++ evs /\ (clock_reads w0 <= clock_reads w)%nat /\
    forall region path,
      output_files !! region = Some path ->
      exists k d,
        (clock_reads w0 <= k < clock_reads w)%nat /\
        path = artifact_path (output_dir self) region (now k) /\
        (path, d) ∈ written evs /\
        EvLog INFO (MsgSaved region path) ∈ evs.

(** The lines of the orchestrator's log that are about a region. *)
Definition about (region : string) (ev : Event) : bool :=
  match ev with
  | EvLog _ (MsgNoData r) | EvLog _ (MsgSaved r _) | EvLog _ (MsgErrorProcessing r _) =>
      bool_decide (r = region)
  | _ => false
  end.

(** What the collection loop logs about a region, given the result of
    the region's future: nothing for [None], a warning for an empty
    frame, the error of a failed task or of a failed write, and else the
    path of the saved file. *)
Definition reported (to_parquet_error : DataFrame -> option exn) (region : string)
    (result : Result (option DataFrame)) (lines : list Event) : Prop :=
  match result with
  | Raise e => lines = [EvLog ERROR (MsgErrorProcessing region e)]
  | Ok None => lines = []
  | Ok (Some d) =>
      if pd.empty d then lines = [EvLog WARNING (MsgNoData region)]
      else match to_parquet_error d with
           | Some e => lines = [EvLog ERROR (MsgErrorProcessing region e)]
           | None => exists path, lines = [EvLog INFO (MsgSaved region path)]
           end
  end.

(** The six lines that open the statistics block on the table of the
    pairs [ps], lines 109-118 of [main.py]. *)
Definition summary_lines (region : string)
    (ps : list (WeightedMapping * WeightedGauge)) : Log :=
  [ (INFO, MsgRegionSummary region);
    (INFO, MsgTotalCounties (pd.nunique ((fun p => VStr (w_county_fips p.1)) <$> ps)));
    (INFO, MsgTotalStations (pd.nunique ((fun p => VStr (station_id (gauge p.2))) <$> ps)));
    (INFO, MsgTotalMappings (length ps));
    (INFO, MsgNote "Each county is considered for all subregions, with weights determined by distance");
    (INFO, MsgSubregionDetails) ].

(** The lines of the statistics of one sub-region: what the block of a
    label may hold. *)
Definition sub_region_line (v : PyVal) (entry : LogEntry) : Prop :=
  entry.1 = INFO /\ forall v', entry.2 = MsgSubregion v' -> v' = v.

(* ===================================================================== *)
(** ** preprocessing/coastal_points.py: create_reference_points *)
(* ===================================================================== *)

Module CoastalPoints.

(** Point spacing in meters (5km) *)
Definition POINT_SPACING_M : Qc := Qc_of_Z 5000.

(** [int(x)] of a float: the integer part, rounding towards zero. *)
Definition py_int (x : Qc) : Z := Z.quot (Qnum x) (Z.pos (Qden x)).

Section Shapely.

(** What the function uses of shapely: [line.length] and
    [line.interpolate(fraction, normalized=True)]. *)
Variables LineString Point : Type.
Variable line_length : LineString -> Qc.
Variable interpolate : LineString -> Qc -> Point.

(** [create_reference_points], lines 68-90.  [None] stands for the
    [ZeroDivisionError] that [length / spacing] raises for a spacing
    of zero. *)
Definition create_reference_points (line : LineString) (spacing : Qc)
  : option (list Point) :=
  let length := line_length line in
  if bool_decide (spacing = 0) then None
  else
    let num_points := Z.max 2 (py_int (length / spacing)) in
    Some ((fun i => interpolate line (Qc_of_Z i / Qc_of_Z (num_points - 1)))
            <$> seqZ 0 num_points).

End Shapely.











End CoastalPoints.

Arguments CoastalPoints.create_reference_points {LineString Point} _ _ _ _.


(* ===================================================================== *)
(** * Properties *)
(* ===================================================================== *)

(** ** The weights *)

Section Weights.

Variable wc : WeightCalculator.








End Weights.



(** ** The flattening into records *)

Lemma append_gauges_spec (region : string) (region_info : gmap string PyVal)
    (m : WeightedMapping) (gs : list WeightedGauge) (records : list PyDict) :
  append_gauges region region_info m gs records =
  match gs with
  | [] => Ok records
  | _ :: _ =>
      match region_info !! "name" with
      | Some region_name =>
          Ok (records ++ (make_record m region region_name <$> gs))
      | None => Raise (KeyError "name")
      end
  end.
Proof.
  revert records. induction gs as [|g gs IH]; intros records; [done|].
  simpl. unfold dict_get. destruct (region_info !! "name") as [name|] eqn:Hname; [|done].
  simpl. rewrite IH. destruct gs as [|g' gs]; [done|].
  by rewrite <- app_assoc.
Qed.

Lemma pairs_cons (m : WeightedMapping) (wms : list WeightedMapping) :
  pairs (m :: wms) = ((fun g => (m, g)) <$> w_mappings m) ++ pairs wms.
Proof. unfold pairs. by rewrite bind_cons. Qed.

Lemma append_mappings_spec (region : string) (region_info : gmap string PyVal)
    (wms : list WeightedMapping) (records : list PyDict) :
  append_mappings region region_info wms records =
  match pairs wms with
  | [] => Ok records
  | _ :: _ =>
      match region_info !! "name" with
      | Some region_name =>
          Ok (records ++ ((fun p => make_record p.1 region region_name p.2) <$> pairs wms))
      | None => Raise (KeyError "name")
      end
  end.
Proof.
  revert records. induction wms as [|m wms IH]; intros records; [done|].
  rewrite pairs_cons. cbn [append_mappings]. rewrite append_gauges_spec.
  destruct (w_mappings m) as [|g gs] eqn:Hgs; simpl.
  - apply IH.
  - destruct (region_info !! "name") as [name|] eqn:Hname; simpl; [|done].
    rewrite IH. set (F := fun p : WeightedMapping * WeightedGauge =>
                            make_record p.1 region name p.2).
    set (G := fun g0 : WeightedGauge => (m, g0)).
    assert (HFG : make_record m region name <$> gs = F <$> (G <$> gs))
      by exact (list_fmap_compose G F gs).
    destruct (pairs wms) as [|p ps].
    + do 3 f_equal. transitivity (F <$> (G <$> gs)); [exact HFG|].
      by rewrite app_nil_r.
    + rewrite <- app_assoc. simpl. do 3 f_equal.
      transitivity (F <$> ((G <$> gs) ++ p :: ps)); [|reflexivity].
      rewrite fmap_app. f_equal. exact HFG.
Qed.

Lemma length_pairs (wms : list WeightedMapping) :
  length (pairs wms) = sum_list (length ∘ w_mappings <$> wms).
Proof.
  induction wms as [|m wms IH]; [done|].
  rewrite pairs_cons, length_app, length_fmap. simpl. by rewrite IH.
Qed.

Lemma elem_of_pairs (wms : list WeightedMapping) (m : WeightedMapping) (g : WeightedGauge) :
  (m, g) ∈ pairs wms <-> m ∈ wms /\ g ∈ w_mappings m.
Proof.
  unfold pairs. rewrite list_elem_of_bind. split.
  - intros (m' & Hin & Hm'). apply list_elem_of_fmap in Hin as (g' & [= -> ->] & Hg). done.
  - intros [Hm Hg]. exists m. split; [|done]. apply list_elem_of_fmap. eauto.
Qed.

(** The frame built from the records of a non-empty list of pairs. *)
Lemma from_records_pairs (region : string) (region_name : PyVal)
    (ps : list (WeightedMapping * WeightedGauge)) :
  ps <> [] ->
  pd.from_records ((fun p => make_record p.1 region region_name p.2) <$> ps) =
  frame_of region region_name ps.
Proof.
  destruct ps as [|p ps]; [done|]. intros _.
  unfold pd.from_records, frame_of. simpl. f_equal.
  f_equal. rewrite <- list_fmap_compose. by apply list_fmap_ext.
Qed.

Lemma from_records_nil : pd.from_records [] = {| columns := []; rows := [] |}.
Proof. done. Qed.

Lemma frame_of_empty (region : string) (region_name : PyVal)
    (ps : list (WeightedMapping * WeightedGauge)) :
  pd.empty (frame_of region region_name ps) = bool_decide (ps = []).
Proof.
  unfold pd.empty. apply bool_decide_ext. unfold frame_of; simpl. split.
  - intros [H|H]; [done|]. by apply fmap_nil_inv in H.
  - intros ->. by right.
Qed.


(** ** Computations that only append to the log *)

Lemma oblivious_ret {A} (a : A) : log_oblivious (Eff.ret a).
Proof. exists (Ok a), []. intros l. by rewrite app_nil_r. Qed.

Lemma oblivious_lift {A} (r : Result A) : log_oblivious (Eff.lift r).
Proof. exists r, []. intros l. by rewrite app_nil_r. Qed.

Lemma oblivious_log (lvl : Level) (msg : LogMsg) : log_oblivious (log lvl msg).
Proof. by exists (Ok tt), [(lvl, msg)]. Qed.

Lemma oblivious_bind {A B} (c : Eff.M Log A) (k : A -> Eff.M Log B) :
  log_oblivious c -> (forall a, log_oblivious (k a)) -> log_oblivious (Eff.bind c k).
Proof.
  intros (r & out & Hc) Hk. destruct r as [a|e].
  - destruct (Hk a) as (r' & out' & Hka). exists r', (out ++ out').
    intros l. unfold Eff.bind. by rewrite Hc, Hka, app_assoc.
  - exists (Raise e), out. intros l. unfold Eff.bind. by rewrite Hc.
Qed.

Lemma oblivious_try_except {A} (c : Eff.M Log A) (h : exn -> Eff.M Log A) :
  log_oblivious c -> (forall e, log_oblivious (h e)) -> log_oblivious (Eff.try_except c h).
Proof.
  intros (r & out & Hc) Hh. destruct r as [a|e].
  - exists (Ok a), out. intros l. unfold Eff.try_except. by rewrite Hc.
  - destruct (Hh e) as (r' & out' & Hhe). exists r', (out ++ out').
    intros l. unfold Eff.try_except. by rewrite Hc, Hhe, app_assoc.
Qed.

Lemma oblivious_for_each {A} (xs : list A) (body : A -> Eff.M Log unit) :
  (forall x, log_oblivious (body x)) -> log_oblivious (Eff.for_each xs body).
Proof.
  intros Hbody. induction xs as [|x xs IH]; simpl.
  - apply oblivious_ret.
  - apply oblivious_bind; [apply Hbody|]. intros _. exact IH.
Qed.

(** One step through a sequence of binds. *)
Ltac oblivious_step :=
  first
    [ apply oblivious_ret
    | apply oblivious_lift
    | apply oblivious_log
    | apply oblivious_bind; [|intros ?]
    | apply oblivious_try_except; [|intros ?]
    | apply oblivious_for_each; intros ? ].

Lemma oblivious_log_sub_region (df : DataFrame) (v : PyVal) :
  log_oblivious (log_sub_region df v).
Proof.
  unfold log_sub_region. destruct (truthy v); repeat oblivious_step.
Qed.

Lemma oblivious_log_statistics (region : string) (df : DataFrame) :
  log_oblivious (log_statistics region df).
Proof.
  unfold log_statistics. destruct (negb (pd.empty df)); repeat oblivious_step.
  apply oblivious_log_sub_region.
Qed.


(** ** The statistics block on a table of pairs *)

Section Statistics.

Variables (region : string) (region_name : PyVal).

Local Abbreviation frame := (frame_of region region_name).

Lemma filter_fmap_rows (v : PyVal) (ps : list (WeightedMapping * WeightedGauge)) :
  filter (fun row => default VNone (row !! 6%nat) = v) (row_of region region_name <$> ps) =
  row_of region region_name <$>
    filter (fun p => opt_str (sub_region (gauge p.2)) = v) ps.
Proof.
  induction ps as [|p ps IH]; [done|].
  rewrite fmap_cons, !filter_cons, IH. simpl.
  by destruct (decide (opt_str (sub_region (gauge p.2)) = v)).
Qed.

Lemma select_frame (v : PyVal) (ps : list (WeightedMapping * WeightedGauge)) :
  pd.select (frame ps) "sub_region" v =
  Ok (frame (filter (fun p => opt_str (sub_region (gauge p.2)) = v) ps)).
Proof.
  unfold pd.select, frame_of. simpl. by rewrite filter_fmap_rows.
Qed.

Lemma col_county_fips (ps : list (WeightedMapping * WeightedGauge)) :
  pd.col (frame ps) "county_fips" = Ok ((fun p => VStr (w_county_fips p.1)) <$> ps).
Proof. unfold pd.col, frame_of. simpl. by rewrite <- list_fmap_compose. Qed.

Lemma col_station_id (ps : list (WeightedMapping * WeightedGauge)) :
  pd.col (frame ps) "station_id" = Ok ((fun p => VStr (station_id (gauge p.2))) <$> ps).
Proof. unfold pd.col, frame_of. simpl. by rewrite <- list_fmap_compose. Qed.

Lemma col_sub_region (ps : list (WeightedMapping * WeightedGauge)) :
  pd.col (frame ps) "sub_region" = Ok ((fun p => opt_str (sub_region (gauge p.2))) <$> ps).
Proof. unfold pd.col, frame_of. simpl. by rewrite <- list_fmap_compose. Qed.

Lemma col_distance_meters (ps : list (WeightedMapping * WeightedGauge)) :
  pd.col (frame ps) "distance_meters" =
  Ok (VFloat <$> ((fun p => distance_meters (gauge p.2)) <$> ps)).
Proof. unfold pd.col, frame_of. simpl. by rewrite <- !list_fmap_compose. Qed.

Lemma col_weight (ps : list (WeightedMapping * WeightedGauge)) :
  pd.col (frame ps) "weight" = Ok (VFloat <$> ((fun p => weight p.2) <$> ps)).
Proof. unfold pd.col, frame_of. simpl. by rewrite <- !list_fmap_compose. Qed.

Lemma sum_count_floats (qs : list Qc) :
  exists total, pd.sum_count (VFloat <$> qs) = Ok (total, length qs).
Proof.
  induction qs as [|q qs [total IH]].
  - by exists 0.
  - rewrite fmap_cons. cbn [pd.sum_count]. rewrite IH. simpl. by eexists.
Qed.

Lemma mean_floats (qs : list Qc) : exists m, pd.mean (VFloat <$> qs) = Ok m.
Proof.
  unfold pd.mean. destruct (sum_count_floats qs) as [total ->]. simpl.
  destruct (length qs); by eexists.
Qed.

(** The per-sub-region statistics of a table of pairs never raise. *)
Lemma log_sub_region_frame (ps : list (WeightedMapping * WeightedGauge)) (v : PyVal) :
  exists out, forall l, log_sub_region (frame ps) v l = (Ok tt, l ++ out).
Proof.
  unfold log_sub_region. destruct (truthy v).
  - unfold Eff.bind, Eff.lift. rewrite select_frame.
    rewrite col_county_fips, col_station_id, col_distance_meters, col_weight.
    destruct (mean_floats
      ((fun p => distance_meters (gauge p.2)) <$>
         filter (fun p => opt_str (sub_region (gauge p.2)) = v) ps)) as [md ->].
    destruct (mean_floats
      ((fun p => weight p.2) <$>
         filter (fun p => opt_str (sub_region (gauge p.2)) = v) ps)) as [mw ->].
    eexists. intros l. unfold log, Eff.modify. simpl.
    rewrite <- !app_assoc. simpl. reflexivity.
  - exists []. intros l. unfold Eff.ret. by rewrite app_nil_r.
Qed.

Lemma for_each_no_raise {A} (xs : list A) (body : A -> Eff.M Log unit) :
  (forall x, exists out, forall l, body x l = (Ok tt, l ++ out)) ->
  exists out, forall l, Eff.for_each xs body l = (Ok tt, l ++ out).
Proof.
  intros Hbody. induction xs as [|x xs [out IH]]; simpl.
  - exists []. intros l. unfold Eff.ret. by rewrite app_nil_r.
  - destruct (Hbody x) as [out' Hx]. exists (out' ++ out). intros l.
    unfold Eff.bind. by rewrite Hx, IH, app_assoc.
Qed.

(** The statistics block on a non-empty table of pairs raises exactly
    when sorting the distinct sub-region labels does. *)
Lemma log_statistics_frame (ps : list (WeightedMapping * WeightedGauge)) :
  ps <> [] ->
  exists out, forall l,
    log_statistics region (frame ps) l =
    (rbind (py_sorted (pd.unique (sub_region_cells ps)))
           (fun _ => Ok tt),
     l ++ out).
Proof.
  intros Hps. unfold log_statistics.
  rewrite frame_of_empty, bool_decide_eq_false_2 by done. simpl.
  unfold Eff.bind, Eff.lift.
  rewrite col_county_fips, col_station_id, col_sub_region.
  destruct (py_sorted _) as [ordered|e]; simpl.
  - destruct (for_each_no_raise ordered (log_sub_region (frame ps))
                (log_sub_region_frame ps)) as [out Hout].
    eexists. intros l. unfold log, Eff.modify. simpl.
    rewrite Hout, <- !app_assoc. simpl. reflexivity.
  - eexists. intros l. unfold log, Eff.modify. simpl.
    rewrite <- !app_assoc. simpl. reflexivity.
Qed.

End Statistics.

Lemma log_statistics_no_rows (region : string) (l : Log) :
  log_statistics region (pd.from_records []) l = (Ok tt, l).
Proof. done. Qed.

(** ** Sorting labels *)

Lemma py_insert_strings (s : string) (sorted : list PyVal) :
  Forall is_str sorted ->
  exists sorted', py_insert (VStr s) sorted = Ok sorted' /\ Forall is_str sorted'.
Proof.
  induction 1 as [|y rest Hy Hrest (rest' & IH & Hrest')]; simpl.
  - eexists. split; [done|]. by repeat constructor.
  - destruct y as [| | | |t|]; try done. simpl.
    destruct (String.ltb s t).
    + eexists. split; [done|]. by repeat constructor.
    + rewrite IH. simpl. eexists. split; [done|]. by constructor.
Qed.

Lemma py_sorted_strings (values : list PyVal) :
  Forall is_str values ->
  exists sorted, py_sorted values = Ok sorted /\ Forall is_str sorted.
Proof.
  induction 1 as [|x rest Hx Hrest (sorted & IH & Hsorted)]; simpl.
  - by exists [].
  - rewrite IH. simpl. destruct x as [| | | |s|]; try done.
    by apply py_insert_strings.
Qed.

Lemma unique_Forall (P : PyVal -> Prop) (cells : list PyVal) :
  Forall P cells -> Forall P (pd.unique cells).
Proof.
  induction 1 as [|c rest Hc Hrest IH]; simpl; [done|].
  constructor; [done|]. clear Hc Hrest.
  induction IH as [|x xs Hx _ IH']; [done|].
  rewrite filter_cons. destruct (decide (x <> c)); [by constructor|done].
Qed.

(** When every candidate gauge has a sub-region label, the distinct labels
    can be sorted, and the statistics block does not raise. *)
Lemma labelled_cells_sortable (ps : list (WeightedMapping * WeightedGauge)) :
  Forall (fun p => is_Some (sub_region (gauge p.2))) ps ->
  is_ok (py_sorted (pd.unique (sub_region_cells ps))) = true.
Proof.
  intros Hlabelled.
  destruct (py_sorted_strings (pd.unique (sub_region_cells ps))) as (sorted & -> & _);
    [|done].
  apply unique_Forall. unfold sub_region_cells. apply Forall_fmap.
  eapply Forall_impl; [exact Hlabelled|]. intros p [label Hlabel]. simpl.
  by rewrite Hlabel.
Qed.


(** ** process_region *)

Lemma bind_ret {S A B} (a : A) (k : A -> Eff.M S B) (s : S) :
  Eff.bind (Eff.ret a) k s = k a s.
Proof. done. Qed.

Lemma bind_lift_ok {S A B} (a : A) (k : A -> Eff.M S B) (s : S) :
  Eff.bind (Eff.lift (Ok a)) k s = k a s.
Proof. done. Qed.

Lemma bind_lift_raise {S A B} (e : exn) (k : A -> Eff.M S B) (s : S) :
  Eff.bind (Eff.lift (Raise e)) k s = (Raise e, s).
Proof. done. Qed.

Lemma bind_log {B} (lvl : Level) (msg : LogMsg) (k : unit -> Eff.M Log B) (l : Log) :
  Eff.bind (log lvl msg) k l = k tt (l ++ [(lvl, msg)]).
Proof. done. Qed.

Lemma bind_oblivious {A B} (c : Eff.M Log A) (k : A -> Eff.M Log B)
    (r : Result A) (out : Log) (l : Log) :
  c l = (r, l ++ out) ->
  Eff.bind c k l = match r with Ok a => k a (l ++ out) | Raise e => (Raise e, l ++ out) end.
Proof. intros H. unfold Eff.bind. rewrite H. by destruct r. Qed.

(** Runs the body of [process_region] up to the next step that may raise. *)
Ltac eff_run :=
  repeat first
    [ rewrite bind_log
    | rewrite bind_ret
    | rewrite bind_lift_ok
    | rewrite bind_lift_raise ].

Section ProcessRegion.

Context {GeoDataFrame GaugeFinder : Type}.
Variable NearestGaugeFinder_init : Result GaugeFinder.
Variable find_nearest :
  GaugeFinder -> GeoDataFrame -> GeoDataFrame -> string -> Result (list RawMapping).
Variables (region : string) (region_info : gmap string PyVal).
Variables reference_points gauge_stations : GeoDataFrame.

Local Abbreviation the_process_region :=
  (process_region NearestGaugeFinder_init find_nearest region region_info
     reference_points gauge_stations).
Local Abbreviation the_found_mappings :=
  (found_mappings NearestGaugeFinder_init find_nearest reference_points gauge_stations
     region).
Local Abbreviation the_calculator :=
  (init_weight_calculator region region_info reference_points gauge_stations).



Lemma init_weight_calculator_valid :
  WeightCalculator.validate the_calculator = Ok tt.
Proof. by vm_compute. Qed.

Lemma calculate_weights_default (ms : list RawMapping) :
  WeightCalculator.calculate_weights the_calculator ms =
  Ok (WeightCalculator.weigh_mapping the_calculator <$> ms).
Proof.
  unfold WeightCalculator.calculate_weights. by rewrite init_weight_calculator_valid.
Qed.

(** A region for which the gauge finder yields no mapping. *)
Lemma process_region_no_mappings (l : Log) :
  the_found_mappings = Ok [] ->
  exists l', the_process_region l = (Ok None, l').
Proof.
  unfold found_mappings. intros Hfound.
  unfold process_region, process_region_try, Eff.try_except. eff_run.
  destruct (dict_get region_info "state_codes") as [sc|e]; eff_run; [|by eauto].
  destruct (py_join ", " sc) as [joined|e]; eff_run; [|by eauto].
  destruct NearestGaugeFinder_init as [gf|e]; [|done]. eff_run.
  cbn [rbind] in Hfound. rewrite Hfound. eff_run. by eauto.
Qed.

(** What a returned frame is. *)
Lemma process_region_some (l l' : Log) (df : DataFrame) :
  the_process_region l = (Ok (Some df), l') ->
  exists (ms : list RawMapping),
    the_found_mappings = Ok ms /\ ms <> [] /\
    let wms := WeightCalculator.weigh_mapping the_calculator <$> ms in
    df = mapping_table region region_info wms /\
    (pairs wms <> [] -> is_Some (region_info !! "name")).
Proof.
  unfold found_mappings.
  unfold process_region, process_region_try, Eff.try_except. eff_run.
  destruct (dict_get region_info "state_codes") as [sc|e]; eff_run; [|done].
  destruct (py_join ", " sc) as [joined|e]; eff_run; [|done].
  destruct NearestGaugeFinder_init as [gf|e]; eff_run; [|done]. cbn [rbind].
  destruct (find_nearest gf reference_points gauge_stations region)
    as [[|m ms]|e]; eff_run; [done| |done].
  rewrite calculate_weights_default. eff_run.
  rewrite append_mappings_spec.
  set (wms := WeightCalculator.weigh_mapping _ <$> m :: ms).
  destruct (pairs wms) as [|p ps] eqn:Hps.
  - eff_run.
    destruct (oblivious_log_statistics region (pd.from_records [])) as (r & out & Hout).
    rewrite (bind_oblivious _ _ r out) by apply Hout.
    destruct r as [[]|e]; [|done]. eff_run.
    intros [= <- _]. exists (m :: ms). repeat split; [done| |done].
    unfold mapping_table. fold wms. by rewrite Hps.
  - destruct (region_info !! "name") as [name|] eqn:Hname; eff_run; [|done].
    rewrite app_nil_l.
    set (records := _ <$> p :: ps).
    destruct (oblivious_log_statistics region (pd.from_records records))
      as (r & out & Hout).
    rewrite (bind_oblivious _ _ r out) by apply Hout.
    destruct r as [[]|e]; [|done]. eff_run.
    intros [= <- _]. exists (m :: ms). repeat split; [done| |by eauto].
    unfold mapping_table. fold wms. by rewrite Hps, Hname.
Qed.

(** When a frame is returned: the region information has its
    [state_codes], the gauge finder yields mappings, and, if a pair is
    within the cutoff, the region has a [name] and the distinct
    sub-region labels can be sorted. *)
Lemma process_region_returns (sc : PyVal) (joined : string) (ms : list RawMapping) :
  dict_get region_info "state_codes" = Ok sc ->
  py_join ", " sc = Ok joined ->
  the_found_mappings = Ok ms -> ms <> [] ->
  let wms := WeightCalculator.weigh_mapping the_calculator <$> ms in
  (pairs wms <> [] ->
     is_Some (region_info !! "name") /\
     is_ok (py_sorted (pd.unique (sub_region_cells (pairs wms)))) = true) ->
  exists out, forall l,
    the_process_region l = (Ok (Some (mapping_table region region_info wms)), l ++ out).
Proof.
  intros Hsc Hjoin Hfound Hms wms Hpairs. unfold found_mappings in Hfound.
  assert (exists gf, NearestGaugeFinder_init = Ok gf /\
            find_nearest gf reference_points gauge_stations region = Ok ms)
    as (gf & Hinit & Hfind).
  { revert Hfound. destruct NearestGaugeFinder_init as [gf|e]; [|done]. by eauto. }
  clear Hfound. destruct ms as [|m ms]; [done|].
  assert (Hrun : forall l,
    the_process_region l =
    Eff.try_except
      (let* records := Eff.lift (append_mappings region region_info wms []) in
       let df := pd.from_records records in
       log_statistics region df >> Eff.ret (Some df))
      (fun e => log ERROR (MsgErrorProcessing region e) >> Eff.ret None)
      ((l ++ [(INFO, MsgProcessingRegion region)]) ++ [(INFO, MsgStatesIncluded joined)])).
  { intros l. unfold process_region, process_region_try, Eff.try_except.
    eff_run. rewrite Hsc. eff_run. rewrite Hjoin. eff_run. rewrite Hinit. eff_run.
    rewrite Hfind. eff_run. rewrite calculate_weights_default. eff_run.
    by fold wms. }
  rewrite append_mappings_spec in Hrun. unfold mapping_table.
  destruct (pairs wms) as [|p ps] eqn:Hps.
  - eexists. intros l. rewrite (Hrun l).
    unfold Eff.try_except. eff_run.
    rewrite (bind_oblivious _ _ (Ok tt) []) by (by rewrite app_nil_r).
    eff_run. rewrite app_nil_r, <- !app_assoc. simpl. reflexivity.
  - destruct Hpairs as [[name Hname] Hsorted]; [done|]. rewrite Hname in *.
    change (pd.from_records _) with
      (pd.from_records
         ((fun p0 : WeightedMapping * WeightedGauge =>
             make_record p0.1 region name p0.2) <$> p :: ps)).
    rewrite app_nil_l in Hrun. rewrite from_records_pairs by done.
    destruct (log_statistics_frame region name (p :: ps)) as [out Hout]; [done|].
    destruct (py_sorted _) as [ordered|e]; [|done].
    eexists. intros l. rewrite (Hrun l).
    unfold Eff.try_except. eff_run.
    rewrite from_records_pairs by done.
    rewrite (bind_oblivious _ _ (Ok tt) out) by apply Hout.
    eff_run. rewrite <- !app_assoc. simpl. reflexivity.
Qed.

End ProcessRegion.


(** ** ImputationManager *)

Lemma written_app (evs evs' : list Event) :
  written (evs ++ evs') = written evs ++ written evs'.
Proof. unfold written. apply omap_app. Qed.

Lemma count_event_app (ev : Event) (evs evs' : list Event) :
  count_event ev (evs ++ evs') = (count_event ev evs + count_event ev evs')%nat.
Proof. unfold count_event. by rewrite filter_app, length_app. Qed.

Lemma count_event_collection (ev : Event) (evs : list Event) :
  ~ collection_event ev -> Forall collection_event evs -> count_event ev evs = 0%nat.
Proof.
  intros Hev. unfold count_event. induction 1 as [|ev' evs Hev' _ IH]; [done|].
  rewrite filter_cons. destruct (decide (ev' = ev)) as [->|]; [done|exact IH].
Qed.

Lemma collection_event_not_submit (evs : list Event) :
  Forall collection_event evs -> filter (fun ev => is_submit ev = true) evs = [].
Proof.
  induction 1 as [|ev evs Hev _ IH]; [done|].
  rewrite filter_cons. destruct ev; try done; simpl; by rewrite decide_False.
Qed.

Section Run.

Context {GeoDataFrame GaugeFinder : Type}.
Variable gdf_empty : GeoDataFrame -> bool.
Variable NearestGaugeFinder_init : Result GaugeFinder.
Variable find_nearest :
  GaugeFinder -> GeoDataFrame -> GeoDataFrame -> string -> Result (list RawMapping).
Variable now : nat -> string.
Variables loaded_reference_points loaded_gauge_stations : GeoDataFrame.
Variable to_parquet_error : DataFrame -> option exn.
Variable future_error : string -> option exn.
Variable self : ImputationManager.

Local Abbreviation the_future_result :=
  (future_result NearestGaugeFinder_init find_nearest future_error
     loaded_reference_points loaded_gauge_stations).
Local Abbreviation the_artifact :=
  (artifact NearestGaugeFinder_init find_nearest to_parquet_error future_error
     loaded_reference_points loaded_gauge_stations).
Local Abbreviation the_failure :=
  (collection_failure NearestGaugeFinder_init find_nearest to_parquet_error future_error
     loaded_reference_points loaded_gauge_stations).
Local Abbreviation the_collect_one :=
  (collect_one NearestGaugeFinder_init find_nearest now to_parquet_error future_error
     self loaded_reference_points loaded_gauge_stations).
Local Abbreviation the_collect :=
  (collect NearestGaugeFinder_init find_nearest now to_parquet_error future_error
     self loaded_reference_points loaded_gauge_stations).
Local Abbreviation the_run :=
  (run gdf_empty NearestGaugeFinder_init find_nearest now loaded_reference_points
     loaded_gauge_stations to_parquet_error future_error self).

(** [save_imputation_structure] on a missing or empty frame. *)
Lemma save_nothing (df : option DataFrame) (region : string) (w : World) :
  df = None \/ (exists d, df = Some d /\ pd.empty d = true) ->
  save_imputation_structure now to_parquet_error self df region w =
  (Ok None,
   {| events := events w ++ [EvLog WARNING (MsgNoData region)];
      clock_reads := clock_reads w |}).
Proof.
  intros [->|(d & -> & Hd)]; unfold save_imputation_structure; [done|].
  by rewrite Hd.
Qed.

(** [save_imputation_structure] on a frame with rows. *)
Lemma save_frame (d : DataFrame) (region : string) (w : World) :
  pd.empty d = false ->
  exists path,
    save_imputation_structure now to_parquet_error self (Some d) region w =
    match to_parquet_error d with
    | Some e =>
        (Raise e, {| events := events w; clock_reads := S (clock_reads w) |})
    | None =>
        (Ok (Some path),
         {| events := events w ++ [EvToParquet path d; EvLog INFO (MsgSaved region path)];
            clock_reads := S (clock_reads w) |})
    end.
Proof.
  intros Hd. unfold save_imputation_structure. rewrite Hd.
  eexists. unfold Eff.bind, datetime_now, to_parquet.
  destruct (to_parquet_error d) as [e|]; simpl; [reflexivity|].
  by rewrite <- app_assoc.
Qed.

Lemma artifact_some (future : Future) (d : DataFrame) :
  the_artifact future = Some d <->
  the_future_result future = Ok (Some d) /\ pd.empty d = false /\
  to_parquet_error d = None.
Proof.
  unfold artifact. destruct (future_result _ _ _ _ _ _) as [[d'|]|e].
  - destruct (pd.empty d') eqn:Hd'.
    { split; [done|]. intros ([= ->] & ? & ?). congruence. }
    destruct (to_parquet_error d') eqn:Hw.
    { split; [done|]. intros ([= ->] & ? & ?). congruence. }
    split; [by intros [= ->]|by intros ([= ->] & _)].
  - split; [done|by intros [? _]].
  - split; [done|by intros [? _]].
Qed.

(** One iteration of the collection loop never raises; it only logs and
    writes; it binds the region of the future when, and only when, the
    future has an artifact, which is then the frame written; and it logs
    the exception it met, if any. *)
Lemma collect_one_spec (output_files : gmap string string) (future : Future) (w : World) :
  exists (output_files' : gmap string string) (w' : World) (evs : list Event),
    the_collect_one output_files future w = (Ok output_files', w') /\
    events w' = events w ++ evs /\ Forall collection_event evs /\
    match the_artifact future with
    | Some d =>
        exists path,
          output_files' = <[future.1 := path]> output_files /\
          written evs = [(path, d)]
    | None => output_files' = output_files /\ written evs = []
    end /\
    (forall e, the_failure future = Some e ->
               EvLog ERROR (MsgErrorProcessing future.1 e) ∈ evs).
Proof.
  unfold collect_one, artifact, collection_failure, Eff.try_except.
  destruct (future_result _ _ _ _ _ _) as [[d|]|e]; rewrite ?bind_lift_ok, ?bind_lift_raise.
  - destruct (pd.empty d) eqn:Hd.
    + unfold Eff.bind. rewrite save_nothing by eauto.
      do 3 eexists. split; [reflexivity|]. simpl. split; [reflexivity|].
      split; [by repeat constructor|done].
    + destruct (save_frame d future.1 w Hd) as [path Hsave].
      unfold Eff.bind. rewrite Hsave.
      destruct (to_parquet_error d) as [e|].
      * exists output_files, {| events := events w ++ [EvLog ERROR (MsgErrorProcessing future.1 e)];
                               clock_reads := S (clock_reads w) |},
          [EvLog ERROR (MsgErrorProcessing future.1 e)].
        split; [done|]. split; [done|]. split; [by repeat constructor|].
        split; [done|]. intros e' [= <-]. by apply list_elem_of_singleton.
      * do 3 eexists. split; [reflexivity|]. simpl. split; [reflexivity|].
        split; [by repeat constructor|]. split; [by exists path|done].
  - exists output_files, w, []. rewrite app_nil_r. by repeat split.
  - do 3 eexists. split; [reflexivity|]. simpl. split; [reflexivity|].
    split; [by repeat constructor|]. split; [done|].
    intros e' [= <-]. by apply list_elem_of_singleton.
Qed.

(** The collection loop, by induction on the completed futures. *)
Lemma collect_spec (completed : list Future) (output_files : gmap string string)
    (w : World) :
  exists (output_files' : gmap string string) (w' : World) (evs : list Event),
    the_collect completed output_files w = (Ok output_files', w') /\
    events w' = events w ++ evs /\ Forall collection_event evs /\
    (written evs).*2 = omap the_artifact completed /\
    (forall region, region ∈ dom output_files' <->
       region ∈ dom output_files \/
       exists future, future ∈ completed /\ future.1 = region /\
                      is_Some (the_artifact future)) /\
    (forall region path, output_files' !! region = Some path ->
       output_files !! region = Some path \/
       exists future d, future ∈ completed /\ future.1 = region /\
                        the_artifact future = Some d /\ (path, d) ∈ written evs) /\
    (forall future e, future ∈ completed -> the_failure future = Some e ->
                      EvLog ERROR (MsgErrorProcessing future.1 e) ∈ evs).
Proof.
  revert output_files w.
  induction completed as [|future rest IH]; intros output_files w.
  - exists output_files, w, []. rewrite app_nil_r. simpl.
    split; [done|]. split; [done|]. split; [done|]. split; [done|].
    split; [|split; [by left|]].
    + intros region. split; [by left|]. intros [?|(f & Hf & _)]; [done|].
      by apply not_elem_of_nil in Hf.
    + intros f e Hf. by apply not_elem_of_nil in Hf.
  - destruct (collect_one_spec output_files future w)
      as (files1 & w1 & evs1 & Hone & Hev1 & Hcol1 & Hart & Hfail1).
    destruct (IH files1 w1)
      as (files2 & w2 & evs2 & Hrest & Hev2 & Hcol2 & Hwr2 & Hdom2 & Hlook2 & Hfail2).
    exists files2, w2, (evs1 ++ evs2).
    split; [cbn [collect]; unfold Eff.bind; by rewrite Hone|].
    split; [by rewrite Hev2, Hev1, app_assoc|].
    split; [by apply Forall_app|].
    rewrite written_app, fmap_app, Hwr2. cbn [omap list_omap].
    assert (Hfail : forall f e, f ∈ future :: rest -> the_failure f = Some e ->
              EvLog ERROR (MsgErrorProcessing f.1 e) ∈ evs1 ++ evs2).
    { intros f e Hf He. apply elem_of_app.
      apply elem_of_cons in Hf as [->|Hf]; [left; by apply Hfail1|right; by eapply Hfail2]. }
    destruct (the_artifact future) as [d|] eqn:Hd.
    + destruct Hart as (path & -> & Hwr1). rewrite Hwr1.
      split; [done|]. split; [|split; [|exact Hfail]].
      * intros region. rewrite Hdom2, dom_insert, elem_of_union, elem_of_singleton.
        split.
        -- intros [[->|?]|(f & Hf & Hr & Hs)]; [|by left|].
           ++ right. exists future. rewrite Hd. split; [by left|]. by eauto.
           ++ right. exists f. split; [by right|done].
        -- intros [?|(f & Hf & Hr & Hs)]; [by left; right|].
           apply elem_of_cons in Hf as [->|Hf]; [by left; left|].
           right. exists f. done.
      * intros region path' Hlook.
        apply Hlook2 in Hlook as [Hlook|(f & d' & Hf & Hr & Hd' & Hin)].
        -- apply lookup_insert_Some in Hlook as [[<- <-]|[_ Hlook]]; [|by left].
           right. exists future, d. split; [by left|]. split; [done|]. split; [done|].
           apply elem_of_app. left. by apply list_elem_of_singleton.
        -- right. exists f, d'. split; [by right|]. split; [done|]. split; [done|].
           apply elem_of_app. by right.
    + destruct Hart as [-> Hwr1]. rewrite Hwr1.
      split; [done|]. split; [|split; [|exact Hfail]].
      * intros region. rewrite Hdom2. split.
        -- intros [?|(f & Hf & Hr & Hs)]; [by left|]. right. exists f.
           split; [by right|done].
        -- intros [?|(f & Hf & Hr & Hs)]; [by left|].
           apply elem_of_cons in Hf as [->|Hf].
           ++ rewrite Hd in Hs. by destruct Hs.
           ++ right. exists f. done.
      * intros region path' Hlook.
        apply Hlook2 in Hlook as [Hlook|(f & d' & Hf & Hr & Hd' & Hin)].
        -- by left.
        -- right. exists f, d'. split; [by right|done].
Qed.

Lemma submit_all (futures : list Future) (w : World) :
  Eff.for_each futures (fun future => emit (EvSubmit future.1)) w =
  (Ok tt, {| events := events w ++ (EvSubmit <$> futures.*1);
             clock_reads := clock_reads w |}).
Proof.
  revert w. induction futures as [|future rest IH]; intros w.
  - destruct w. simpl. unfold Eff.ret. by rewrite app_nil_r.
  - cbn [Eff.for_each]. unfold Eff.bind, emit at 1, Eff.modify. rewrite IH. simpl.
    by rewrite <- app_assoc.
Qed.

(** [run] with an empty dataset. *)
Lemma run_empty (as_completed : list Future -> list Future) (w : World) :
  gdf_empty loaded_reference_points || gdf_empty loaded_gauge_stations = true ->
  the_run as_completed w =
  (Ok ∅,
   {| events := events w ++ [EvLoadReferencePoints; EvLoadGaugeStations;
                             EvLog ERROR MsgLoadFailed];
      clock_reads := clock_reads w |}).
Proof.
  intros Hempty. unfold run, load_reference_points, load_gauge_stations,
    Eff.bind, emit, wlog, emit, Eff.modify, Eff.ret. simpl.
  rewrite Hempty. simpl. by rewrite <- !app_assoc.
Qed.

(** [run] with two non-empty datasets: the loads, the submissions, then
    the collection loop over the completed futures. *)
Lemma run_dispatch (as_completed : list Future -> list Future) (w : World) :
  gdf_empty loaded_reference_points || gdf_empty loaded_gauge_stations = false ->
  the_run as_completed w =
  the_collect (as_completed (map_to_list (region_config self))) ∅
    {| events := events w ++ [EvLoadReferencePoints; EvLoadGaugeStations] ++
                 (EvSubmit <$> (map_to_list (region_config self)).*1);
       clock_reads := clock_reads w |}.
Proof.
  intros Hempty. unfold run, load_reference_points, load_gauge_stations.
  unfold Eff.bind at 1 2 3 4. unfold emit at 1 2, Eff.modify, Eff.ret. simpl.
  rewrite Hempty. unfold Eff.bind. rewrite submit_all. simpl.
  by rewrite <- !app_assoc.
Qed.

Lemma written_dispatch (regions : list string) (evs : list Event) :
  written ([EvLoadReferencePoints; EvLoadGaugeStations] ++ (EvSubmit <$> regions) ++ evs) =
  written evs.
Proof.
  rewrite !written_app. simpl.
  replace (written (EvSubmit <$> regions)) with (@nil (string * DataFrame)); [done|].
  induction regions as [|r rs IH]; [done|]. exact IH.
Qed.

(** The whole of [run]: it never raises; with an empty dataset it stops
    after the two loads; otherwise it submits every region and collects. *)
Lemma run_spec (as_completed : list Future -> list Future) (w : World) :
  exists (output_files : gmap string string) (w' : World) (evs : list Event),
    the_run as_completed w = (Ok output_files, w') /\
    events w' = events w ++ evs /\
    if gdf_empty loaded_reference_points || gdf_empty loaded_gauge_stations then
      output_files = ∅ /\
      evs = [EvLoadReferencePoints; EvLoadGaugeStations; EvLog ERROR MsgLoadFailed]
    else
      let futures := map_to_list (region_config self) in
      let completed := as_completed futures in
      exists evs_c,
        evs = [EvLoadReferencePoints; EvLoadGaugeStations] ++
              (EvSubmit <$> futures.*1) ++ evs_c /\
        Forall collection_event evs_c /\
        (written evs_c).*2 = omap the_artifact completed /\
        (forall region, region ∈ dom output_files <->
           exists future, future ∈ completed /\ future.1 = region /\
                          is_Some (the_artifact future)) /\
        (forall region path, output_files !! region = Some path ->
           exists future d, future ∈ completed /\ future.1 = region /\
                            the_artifact future = Some d /\ (path, d) ∈ written evs_c) /\
        (forall future e, future ∈ completed -> the_failure future = Some e ->
                          EvLog ERROR (MsgErrorProcessing future.1 e) ∈ evs_c).
Proof.
  destruct (gdf_empty loaded_reference_points || gdf_empty loaded_gauge_stations) eqn:Hempty.
  - rewrite run_empty by done. do 3 eexists. split; [reflexivity|]. by simpl.
  - rewrite run_dispatch by done.
    destruct (collect_spec (as_completed (map_to_list (region_config self))) ∅
                {| events := events w ++ [EvLoadReferencePoints; EvLoadGaugeStations] ++
                             (EvSubmit <$> (map_to_list (region_config self)).*1);
                   clock_reads := clock_reads w |})
      as (files & w' & evs_c & Hrun & Hev & Hcol & Hwr & Hdom & Hlook & Hfail).
    exists files, w', ([EvLoadReferencePoints; EvLoadGaugeStations] ++
                       (EvSubmit <$> (map_to_list (region_config self)).*1) ++ evs_c).
    split; [done|]. split.
    { rewrite Hev. simpl. by rewrite <- !app_assoc. }
    exists evs_c. split; [done|]. split; [done|]. split; [done|].
    split; [|split; [|done]].
    + intros region. rewrite Hdom, dom_empty, elem_of_empty. tauto.
    + intros region path Hp. apply Hlook in Hp as [Hp|Hp]; [|done].
      by rewrite lookup_empty in Hp.
Qed.

(** With every submitted future completed once, the completed futures
    are the entries of the region configuration. *)
Lemma elem_of_completed (as_completed : list Future -> list Future) (future : Future) :
  (forall l, as_completed l ≡ₚ l) ->
  future ∈ as_completed (map_to_list (region_config self)) <->
  region_config self !! future.1 = Some future.2.
Proof.
  intros Hperm. rewrite (Hperm _). destruct future as [region info].
  apply elem_of_map_to_list.
Qed.

(** The frame of an artifact is the table that [process_region] built
    in the worker. *)
Lemma artifact_table (future : Future) (d : DataFrame) :
  the_artifact future = Some d ->
  exists ms,
    found_mappings NearestGaugeFinder_init find_nearest loaded_reference_points
      loaded_gauge_stations future.1 = Ok ms /\ ms <> [] /\
    let wms :=
      WeightCalculator.weigh_mapping
        (init_weight_calculator future.1 future.2 loaded_reference_points
           loaded_gauge_stations) <$> ms in
    d = mapping_table future.1 future.2 wms /\
    (pairs wms <> [] -> is_Some (future.2 !! "name")).
Proof.
  intros Hart. apply artifact_some in Hart as (Hres & _ & _).
  unfold future_result in Hres. destruct (future_error future.1); [done|].
  destruct (process_region _ _ _ _ _ _ []) as [r l'] eqn:Hpr.
  simpl in Hres. subst r. by apply process_region_some in Hpr.
Qed.

End Run.


(** ** The table of a region *)

Lemma mapping_table_rows (region : string) (region_info : gmap string PyVal)
    (wms : list WeightedMapping) :
  rows (mapping_table region region_info wms) =
  row_of region (default VNone (region_info !! "name")) <$> pairs wms.
Proof.
  unfold mapping_table. destruct (pairs wms) as [|p ps] eqn:Hps; [done|].
  by rewrite from_records_pairs.
Qed.

Lemma mapping_table_columns (region : string) (region_info : gmap string PyVal)
    (wms : list WeightedMapping) :
  pairs wms <> [] -> columns (mapping_table region region_info wms) = MAPPING_COLUMNS.
Proof. intros Hps. unfold mapping_table. by rewrite from_records_pairs. Qed.


(* ===================================================================== *)
(** * The claims *)
(* ===================================================================== *)


(** C6: the projection of a region is the [projection] entry of its
    definition when there is one; otherwise the Alaska Albers projection
    for [alaska], the West Coast Albers projection for [west_coast] and
    [pacific_islands], and the CONUS Albers projection for every other
    name.  The lookup never raises and logs one line. *)
Theorem get_region_projection_cascade (region_name : string)
    (region_def : gmap string PyVal) (l : Log) :
  exists msg,
    Preprocessing.get_region_projection region_name region_def l =
    (Ok (match region_def !! "projection" with
         | Some proj => proj
         | None =>
             if decide (region_name = "alaska") then
               VStr Preprocessing.ALASKA_ALBERS
             else if decide (region_name = "west_coast" \/ region_name = "pacific_islands") then
               VStr Preprocessing.WEST_COAST_ALBERS
             else VStr Preprocessing.CONUS_ALBERS
         end),
     l ++ [(INFO, msg)]).
Proof.
  unfold Preprocessing.get_region_projection, dict_in, dict_get.
  destruct (region_def !! "projection") as [proj|] eqn:Hproj.
  - rewrite bool_decide_eq_true_2 by eauto. by eexists.
  - rewrite bool_decide_eq_false_2 by (by intros [? ?]).
    destruct (decide (region_name = "alaska")) as [->|Hal].
    + by eexists.
    + rewrite (bool_decide_eq_false_2 _ Hal).
      destruct (decide (region_name = "west_coast" \/ region_name = "pacific_islands"))
        as [Hwest|Hwest].
      * rewrite bool_decide_eq_true_2; [by eexists|].
        destruct Hwest as [-> | ->]; [by left|by right; left].
      * rewrite bool_decide_eq_false_2; [by eexists|].
        intros Hin. apply Hwest.
        apply elem_of_cons in Hin as [?|Hin]; [by left|].
        apply list_elem_of_singleton in Hin. by right.
Qed.


Section Claims.

Context {GeoDataFrame GaugeFinder : Type}.
Variable gdf_empty : GeoDataFrame -> bool.
Variable NearestGaugeFinder_init : Result GaugeFinder.
Variable find_nearest :
  GaugeFinder -> GeoDataFrame -> GeoDataFrame -> string -> Result (list RawMapping).
Variable now : nat -> string.
Variables loaded_reference_points loaded_gauge_stations : GeoDataFrame.
Variable to_parquet_error : DataFrame -> option exn.
Variable future_error : string -> option exn.
Variable self : ImputationManager.

Local Abbreviation worker_process_region :=
  (process_region NearestGaugeFinder_init find_nearest).
Local Abbreviation the_found_mappings :=
  (found_mappings NearestGaugeFinder_init find_nearest loaded_reference_points
     loaded_gauge_stations).
Local Abbreviation the_future_result :=
  (future_result NearestGaugeFinder_init find_nearest future_error
     loaded_reference_points loaded_gauge_stations).
Local Abbreviation the_artifact :=
  (artifact NearestGaugeFinder_init find_nearest to_parquet_error future_error
     loaded_reference_points loaded_gauge_stations).
Local Abbreviation the_failure :=
  (collection_failure NearestGaugeFinder_init find_nearest to_parquet_error future_error
     loaded_reference_points loaded_gauge_stations).
Local Abbreviation the_run :=
  (run gdf_empty NearestGaugeFinder_init find_nearest now loaded_reference_points
     loaded_gauge_stations to_parquet_error future_error self).
Local Abbreviation datasets_empty :=
  (gdf_empty loaded_reference_points || gdf_empty loaded_gauge_stations).



(** C2: when the gauge finder yields no mapping for a region,
    [process_region] returns [None] without raising, whatever the region
    information and the log, and the mapping that [run] returns has no
    entry for the region. *)
Theorem no_mappings_region_skipped (region : string) :
  the_found_mappings region = Ok [] ->
  (forall (region_info : gmap string PyVal) (l : Log),
      exists l',
        worker_process_region region region_info loaded_reference_points
          loaded_gauge_stations l = (Ok None, l')) /\
  (forall (as_completed : list Future -> list Future) (w : World),
      exists output_files w',
        the_run as_completed w = (Ok output_files, w') /\
        output_files !! region = None).
Proof.
  intros Hfound. split.
  - intros region_info l. by apply process_region_no_mappings.
  - intros as_completed w.
    destruct (run_spec gdf_empty NearestGaugeFinder_init find_nearest now
                loaded_reference_points loaded_gauge_stations to_parquet_error
                future_error self as_completed w)
      as (files & w' & evs & Hrun & Hev & Hspec).
    exists files, w'. split; [done|].
    destruct datasets_empty.
    + destruct Hspec as [-> _]. apply lookup_empty.
    + destruct Hspec as (evs_c & _ & _ & _ & Hdom & _).
      apply not_elem_of_dom. rewrite Hdom. intros ([r info] & _ & Hr & [d Hart]).
      simpl in Hr. subst r.
      apply artifact_table in Hart as (ms & Hms & Hne & _). simpl in Hms.
      rewrite Hfound in Hms. by injection Hms as <-.
Qed.


(** C4: [run] calls each of the two loaders exactly once, and with an
    empty dataset it returns the empty mapping, submits no task and
    writes no file. *)
Theorem run_loads_once_and_fails_fast
    (as_completed : list Future -> list Future) (w : World) :
  exists output_files w' evs,
    the_run as_completed w = (Ok output_files, w') /\
    events w' = events w ++ evs /\
    count_event EvLoadReferencePoints evs = 1%nat /\
    count_event EvLoadGaugeStations evs = 1%nat /\
    (datasets_empty = true ->
     output_files = ∅ /\
     filter (fun ev => is_submit ev = true) evs = [] /\
     written evs = []).
Proof.
  destruct (run_spec gdf_empty NearestGaugeFinder_init find_nearest now
              loaded_reference_points loaded_gauge_stations to_parquet_error
              future_error self as_completed w)
    as (files & w' & evs & Hrun & Hev & Hspec).
  exists files, w', evs. split; [done|]. split; [done|].
  destruct datasets_empty.
  - destruct Hspec as [-> ->]. by repeat split.
  - destruct Hspec as (evs_c & -> & Hcol & _).
    assert (Hsubmits : forall ev regions,
              collection_event ev \/ is_submit ev = false ->
              ~ collection_event ev ->
              count_event ev ((EvSubmit <$> regions) ++ evs_c) = 0%nat).
    { intros ev regions Hns Hnc. rewrite count_event_app.
      rewrite (count_event_collection ev evs_c) by done.
      unfold count_event. induction regions as [|r rs IH]; [done|].
      rewrite fmap_cons, filter_cons.
      destruct (decide (EvSubmit r = ev)) as [<-|_]; [|exact IH].
      by destruct Hns. }
    split; [|split; [|done]].
    + change (count_event EvLoadReferencePoints _)
        with (S (count_event EvLoadReferencePoints
                   ((EvSubmit <$> (map_to_list (region_config self)).*1) ++ evs_c))).
      rewrite Hsubmits; [done|by right|by intros []].
    + change (count_event EvLoadGaugeStations _)
        with (S (count_event EvLoadGaugeStations
                   ((EvSubmit <$> (map_to_list (region_config self)).*1) ++ evs_c))).
      rewrite Hsubmits; [done|by right|by intros []].
Qed.


(** C7: the frame that [process_region] returns has one row per
    (reference point, candidate gauge) pair of the weighted mappings of
    the region, in the order of the mappings; a row holds the reference
    point id, the county, the region identifier, the region's display
    name, the station id and name, the sub-region, the distance and the
    weight, and these nine are the columns of the frame. *)
Theorem table_has_one_row_per_pair (region : string) (region_info : gmap string PyVal)
    (reference_points gauge_stations : GeoDataFrame) (l l' : Log) (df : DataFrame) :
  worker_process_region region region_info reference_points gauge_stations l =
  (Ok (Some df), l') ->
  exists (ms : list RawMapping) (region_name : PyVal),
    found_mappings NearestGaugeFinder_init find_nearest reference_points gauge_stations
      region = Ok ms /\
    let wms :=
      WeightCalculator.weigh_mapping
        (init_weight_calculator region region_info reference_points gauge_stations)
        <$> ms in
    rows df =
      (fun p : WeightedMapping * WeightedGauge =>
         [ VStr (w_reference_point_id p.1); VStr (w_county_fips p.1); VStr region;
           region_name; VStr (station_id (gauge p.2)); VStr (station_name (gauge p.2));
           opt_str (sub_region (gauge p.2)); VFloat (distance_meters (gauge p.2));
           VFloat (weight p.2) ]) <$> pairs wms /\
    length (rows df) = sum_list (length ∘ w_mappings <$> wms) /\
    (rows df <> [] ->
     columns df =
       [ "reference_point_id"; "county_fips"; "region"; "region_name"; "station_id";
         "station_name"; "sub_region"; "distance_meters"; "weight" ] /\
     region_info !! "name" = Some region_name).
Proof.
  intros Hpr. apply process_region_some in Hpr as (ms & Hms & _ & -> & Hname).
  exists ms, (default VNone (region_info !! "name")). split; [done|].
  split; [by rewrite mapping_table_rows|].
  split; [by rewrite mapping_table_rows, length_fmap, length_pairs|].
  rewrite mapping_table_rows. intros Hrows.
  assert (Hps : pairs (WeightCalculator.weigh_mapping
                         (init_weight_calculator region region_info reference_points
                            gauge_stations) <$> ms) <> [])
    by (intros Hnil; by rewrite Hnil in Hrows).
  split; [by rewrite mapping_table_columns|].
  by destruct (Hname Hps) as [name ->].
Qed.


(** C10: [save_imputation_structure] returns [None] and writes nothing
    for a missing or empty frame; so, with every submitted future
    completed once, a region whose worker returns an empty frame is not
    in the mapping that [run] returns, and every path in that mapping is
    the path of a file that the run wrote from a frame with rows. *)
Theorem result_paths_are_written_artifacts
    (as_completed : list Future -> list Future) (w : World) :
  (forall l, as_completed l ≡ₚ l) ->
  (forall (df : option DataFrame) (region : string) (w0 : World),
      df = None \/ (exists d, df = Some d /\ pd.empty d = true) ->
      exists w0',
        save_imputation_structure now to_parquet_error self df region w0 = (Ok None, w0') /\
        written (events w0') = written (events w0)) /\
  exists output_files w' evs,
    the_run as_completed w = (Ok output_files, w') /\
    events w' = events w ++ evs /\
    (forall region region_info d,
        region_config self !! region = Some region_info ->
        the_future_result (region, region_info) = Ok (Some d) ->
        pd.empty d = true ->
        output_files !! region = None) /\
    (forall region path,
        output_files !! region = Some path ->
        exists d, (path, d) ∈ written evs /\ pd.empty d = false).
Proof.
  intros Hperm. split.
  - intros df region w0 Hdf. rewrite save_nothing by done.
    eexists. split; [reflexivity|]. simpl. by rewrite written_app, app_nil_r.
  - destruct (run_spec gdf_empty NearestGaugeFinder_init find_nearest now
                loaded_reference_points loaded_gauge_stations to_parquet_error
                future_error self as_completed w)
      as (files & w' & evs & Hrun & Hev & Hspec).
    exists files, w', evs. split; [done|]. split; [done|].
    destruct datasets_empty.
    { destruct Hspec as [-> _]. split.
      - intros. apply lookup_empty.
      - intros region path Hp. by rewrite lookup_empty in Hp. }
    destruct Hspec as (evs_c & -> & _ & _ & Hdom & Hlook & _). split.
    + intros region region_info d Hcfg Hres Hd.
      apply not_elem_of_dom. rewrite Hdom. intros ([r info] & Hf & Hr & [d' Hart]).
      simpl in Hr. subst r. apply elem_of_completed in Hf; [|done]. simpl in Hf.
      assert (info = region_info) as -> by congruence.
      apply artifact_some in Hart as (Hres' & Hd' & _). congruence.
    + intros region path Hp. rewrite written_dispatch.
      destruct (Hlook region path Hp) as (future & d & _ & _ & Hart & Hw).
      exists d. split; [done|]. by apply artifact_some in Hart as (_ & Hd & _).
Qed.

End Claims.


(** C9: with one gauge labelled "north" and one without a sub-region for
    the same reference point, the two-row table is built, sorting the
    labels raises in the statistics block, and [process_region] returns
    [None] in place of the table. *)
Theorem statistics_block_discards_table :
  exists (records : list PyDict) (log : Log),
    append_mappings "west_coast" Sample.region_info
      (WeightCalculator.weigh_mapping Sample.calculator
         <$> [Sample.point [Sample.north_gauge; Sample.unlabelled_gauge]]) [] = Ok records /\
    pd.len (pd.from_records records) = 2%nat /\
    process_region (Ok tt) (Sample.find_nearest [Sample.north_gauge; Sample.unlabelled_gauge])
      "west_coast" Sample.region_info 3%nat 4%nat [] = (Ok None, log) /\
    last log = Some (ERROR, MsgErrorProcessing "west_coast" (TypeError "'<' not supported")).
Proof.
  eexists _, _. split; [by vm_compute|]. split; [by vm_compute|].
  split; [by vm_compute|]. by vm_compute.
Qed.


(* ===================================================================== *)
(** * The claims on the sample run *)
(* ===================================================================== *)


(** C2 on the sample run: the gauge finder finds nothing in Alaska, and
    the result has no entry for it. *)
Lemma no_mappings_region_skipped_witness :
  found_mappings (Ok tt) (Sample.find_nearest [Sample.north_gauge]) 3%nat 4%nat "alaska" =
  Ok [] /\
  exists output_files w',
    run Sample.gdf_empty (Ok tt) (Sample.find_nearest [Sample.north_gauge]) Sample.now
      3%nat 4%nat Sample.no_error Sample.no_error Sample.manager reverse Sample.world =
    (Ok output_files, w') /\
    output_files !! "alaska" = None.
Proof.
  split; [by vm_compute|].
  apply (no_mappings_region_skipped Sample.gdf_empty (Ok tt)
           (Sample.find_nearest [Sample.north_gauge]) Sample.now 3%nat 4%nat
           Sample.no_error Sample.no_error Sample.manager "alaska").
  by vm_compute.
Defined.



(** C7 on the sample: one gauge within the cutoff, one row, nine columns. *)
Lemma table_has_one_row_per_pair_witness :
  exists df l',
    process_region (Ok tt) (Sample.find_nearest [Sample.north_gauge; Sample.far_gauge])
      "west_coast" Sample.region_info 3%nat 4%nat [] = (Ok (Some df), l') /\
    length (rows df) = 1%nat /\
    columns df = MAPPING_COLUMNS.
Proof.
  eexists _, _. split; [by vm_compute|].
  destruct (table_has_one_row_per_pair (Ok tt)
              (Sample.find_nearest [Sample.north_gauge; Sample.far_gauge])
              "west_coast" Sample.region_info 3%nat 4%nat [] _ _ eq_refl)
    as (ms & region_name & Hms & _ & Hlen & Hcols).
  split; [by vm_compute|]. by apply Hcols.
Defined.

(** C10 on the sample run. *)
Lemma result_paths_are_written_artifacts_witness :
  exists output_files w' evs,
    run Sample.gdf_empty (Ok tt) (Sample.find_nearest [Sample.north_gauge]) Sample.now
      3%nat 4%nat Sample.no_error Sample.no_error Sample.manager reverse Sample.world =
    (Ok output_files, w') /\
    events w' = events Sample.world ++ evs /\
    forall region path,
      output_files !! region = Some path ->
      exists d, (path, d) ∈ written evs /\ pd.empty d = false.
Proof.
  destruct (result_paths_are_written_artifacts Sample.gdf_empty (Ok tt)
              (Sample.find_nearest [Sample.north_gauge]) Sample.now 3%nat 4%nat
              Sample.no_error Sample.no_error Sample.manager reverse Sample.world)
    as [_ (files & w' & evs & Hrun & Hev & _ & Hpaths)].
  { intros l. apply reverse_Permutation. }
  exists files, w', evs. split; [exact Hrun|]. split; [exact Hev|exact Hpaths].
Defined.

(* ===================================================================== *)
(** * Further properties of imputation/main.py *)
(* ===================================================================== *)

(** ** Paths of the artifacts *)





Section RunFurther.

Context {GeoDataFrame GaugeFinder : Type}.
Variable gdf_empty : GeoDataFrame -> bool.
Variable NearestGaugeFinder_init : Result GaugeFinder.
Variable find_nearest :
  GaugeFinder -> GeoDataFrame -> GeoDataFrame -> string -> Result (list RawMapping).
Variable now : nat -> string.
Variables loaded_reference_points loaded_gauge_stations : GeoDataFrame.
Variable to_parquet_error : DataFrame -> option exn.
Variable future_error : string -> option exn.
Variable self : ImputationManager.

Local Abbreviation the_future_result :=
  (future_result NearestGaugeFinder_init find_nearest future_error
     loaded_reference_points loaded_gauge_stations).
Local Abbreviation the_artifact :=
  (artifact NearestGaugeFinder_init find_nearest to_parquet_error future_error
     loaded_reference_points loaded_gauge_stations).
Local Abbreviation the_collect_one :=
  (collect_one NearestGaugeFinder_init find_nearest now to_parquet_error future_error
     self loaded_reference_points loaded_gauge_stations).
Local Abbreviation the_collect :=
  (collect NearestGaugeFinder_init find_nearest now to_parquet_error future_error
     self loaded_reference_points loaded_gauge_stations).
Local Abbreviation the_run :=
  (run gdf_empty NearestGaugeFinder_init find_nearest now loaded_reference_points
     loaded_gauge_stations to_parquet_error future_error self).
Local Abbreviation datasets_empty :=
  (gdf_empty loaded_reference_points || gdf_empty loaded_gauge_stations).

(** [save_imputation_structure] on a frame with rows, with the path. *)
Lemma save_frame_path (d : DataFrame) (region : string) (w : World) :
  pd.empty d = false ->
  save_imputation_structure now to_parquet_error self (Some d) region w =
  let path := artifact_path (output_dir self) region (now (clock_reads w)) in
  match to_parquet_error d with
  | Some e => (Raise e, {| events := events w; clock_reads := S (clock_reads w) |})
  | None =>
      (Ok (Some path),
       {| events := events w ++ [EvToParquet path d; EvLog INFO (MsgSaved region path)];
          clock_reads := S (clock_reads w) |})
  end.
Proof.
  intros Hd. unfold save_imputation_structure. rewrite Hd.
  unfold Eff.bind, datetime_now, to_parquet, artifact_path.
  destruct (to_parquet_error d) as [e|]; simpl; [reflexivity|].
  by rewrite <- app_assoc.
Qed.

Local Abbreviation saved := (saved_since now self).








Lemma count_submit_fmap (region : string) (regions : list string) :
  NoDup regions ->
  count_event (EvSubmit region) (EvSubmit <$> regions) =
  if decide (region ∈ regions) then 1%nat else 0%nat.
Proof.
  unfold count_event. induction 1 as [|r rs Hr Hrs IH]; [done|].
  rewrite fmap_cons, filter_cons.
  destruct (decide (EvSubmit r = EvSubmit region)) as [[= ->]|Hne].
  - rewrite decide_True by apply list_elem_of_here.
    cbn [length]. rewrite IH. by rewrite decide_False.
  - rewrite IH. destruct (decide (region ∈ rs)) as [Hin|Hnin].
    + by rewrite decide_True by by apply list_elem_of_further.
    + rewrite decide_False; [done|]. intros Hin.
      apply elem_of_cons in Hin as [->|?]; done.
Qed.

(** X3: [run] submits one task for each region of the region
    configuration, and none for any other region; with an empty dataset it
    submits none. *)
Theorem run_submits_each_region_once (as_completed : list Future -> list Future)
    (w : World) (region : string) :
  exists output_files w' evs,
    the_run as_completed w = (Ok output_files, w') /\
    events w' = events w ++ evs /\
    count_event (EvSubmit region) evs =
    if datasets_empty then 0%nat
    else if decide (region ∈ dom (region_config self)) then 1%nat else 0%nat.
Proof.
  destruct (run_spec gdf_empty NearestGaugeFinder_init find_nearest now
              loaded_reference_points loaded_gauge_stations to_parquet_error
              future_error self as_completed w)
    as (files & w' & evs & Hrun & Hev & Hspec).
  exists files, w', evs. split; [done|]. split; [done|].
  destruct datasets_empty.
  - destruct Hspec as [_ ->]. reflexivity.
  - destruct Hspec as (evs_c & -> & Hcol & _).
    rewrite !count_event_app.
    rewrite (count_event_collection _ evs_c); [|by intros []|done].
    rewrite count_submit_fmap by apply NoDup_fst_map_to_list.
    change (count_event (EvSubmit region) [EvLoadReferencePoints; EvLoadGaugeStations])
      with 0%nat.
    assert (Hkeys : region ∈ (map_to_list (region_config self)).*1 <->
                    region ∈ dom (region_config self)).
    { rewrite elem_of_dom. split.
      - intros Hin. apply list_elem_of_fmap in Hin as ([r info] & -> & Hin).
        apply elem_of_map_to_list in Hin. by eauto.
      - intros [info Hinfo]. apply list_elem_of_fmap. exists (region, info).
        split; [done|]. by apply elem_of_map_to_list. }
    destruct (decide (region ∈ (map_to_list (region_config self)).*1)) as [Hin|Hnin].
    + by rewrite decide_True by by apply Hkeys.
    + rewrite decide_False; [done|]. intros Hin. by apply Hnin, Hkeys.
Qed.

Lemma length_omap_le {A B} (f : A -> option B) (l : list A) :
  (length (omap f l) <= length l)%nat.
Proof.
  induction l as [|x l IH]; [done|]. cbn [omap list_omap].
  destruct (f x); simpl; lia.
Qed.

(** X4: with every submitted future completed once, the mapping that
    [run] returns has entries for configured regions only, and the run
    writes at most as many files as there are configured regions. *)
Theorem run_stays_within_configuration (as_completed : list Future -> list Future)
    (w : World) :
  (forall l, as_completed l ≡ₚ l) ->
  exists output_files w' evs,
    the_run as_completed w = (Ok output_files, w') /\
    events w' = events w ++ evs /\
    dom output_files ⊆ dom (region_config self) /\
    (length (written evs) <= size (region_config self))%nat.
Proof.
  intros Hperm.
  destruct (run_spec gdf_empty NearestGaugeFinder_init find_nearest now
              loaded_reference_points loaded_gauge_stations to_parquet_error
              future_error self as_completed w)
    as (files & w' & evs & Hrun & Hev & Hspec).
  exists files, w', evs. split; [done|]. split; [done|].
  destruct datasets_empty.
  - destruct Hspec as [-> ->]. split; [by rewrite dom_empty_L|]. simpl. lia.
  - destruct Hspec as (evs_c & -> & _ & Hwr & Hdom & _). split.
    + intros region Hr. apply Hdom in Hr as ([r info] & Hf & Hfr & _).
      simpl in Hfr. subst r.
      apply (elem_of_completed self as_completed (region, info) Hperm) in Hf.
      apply elem_of_dom. by eauto.
    + rewrite written_dispatch.
      rewrite <- (length_fmap snd (written evs_c)), Hwr.
      etransitivity; [apply length_omap_le|].
      rewrite (Permutation_length (Hperm (map_to_list (region_config self)))).
      pose proof (length_map_to_list (region_config self)) as Hsize.
      unfold Future. lia.
Qed.

(** X5: the events of a run come in three phases: the two loads, then
    the submissions, then log lines and written files only.  No file is
    written before every task is submitted, and no task is submitted
    after the first result is collected. *)
Theorem run_event_order (as_completed : list Future -> list Future) (w : World) :
  exists output_files w' submits rest,
    the_run as_completed w = (Ok output_files, w') /\
    events w' =
      events w ++ [EvLoadReferencePoints; EvLoadGaugeStations] ++ submits ++ rest /\
    Forall (fun ev => is_submit ev = true) submits /\
    Forall collection_event rest.
Proof.
  destruct (run_spec gdf_empty NearestGaugeFinder_init find_nearest now
              loaded_reference_points loaded_gauge_stations to_parquet_error
              future_error self as_completed w)
    as (files & w' & evs & Hrun & Hev & Hspec).
  destruct datasets_empty.
  - destruct Hspec as [_ ->].
    exists files, w', [], [EvLog ERROR MsgLoadFailed].
    split; [done|]. split; [done|]. split; [constructor|]. by repeat constructor.
  - destruct Hspec as (evs_c & -> & Hcol & _).
    exists files, w', (EvSubmit <$> (map_to_list (region_config self)).*1), evs_c.
    split; [done|]. split; [done|]. split; [|done].
    apply Forall_fmap, Forall_forall. by intros region _.
Qed.

Lemma filter_about_singleton (region : string) (ev : Event) :
  filter (fun ev => about region ev = true) [ev] = if about region ev then [ev] else [].
Proof.
  rewrite filter_cons, filter_nil.
  destruct (about region ev); [by rewrite decide_True|by rewrite decide_False].
Qed.

Lemma filter_about_submits (region : string) (regions : list string) :
  filter (fun ev => about region ev = true) (EvSubmit <$> regions) = [].
Proof.
  induction regions as [|r rs IH]; [done|].
  by rewrite fmap_cons, filter_cons, decide_False by (cbn [about]; done).
Qed.

Lemma collect_one_about (region : string) (output_files : gmap string string)
    (future : Future) (w : World) :
  exists output_files' w' evs,
    the_collect_one output_files future w = (Ok output_files', w') /\
    events w' = events w ++ evs /\
    if decide (future.1 = region)
    then reported to_parquet_error region (the_future_result future)
           (filter (fun ev => about region ev = true) evs)
    else filter (fun ev => about region ev = true) evs = [].
Proof.
  unfold collect_one, Eff.try_except, reported.
  destruct (future_result _ _ _ _ _ _) as [[d|]|e]; rewrite ?bind_lift_ok, ?bind_lift_raise.
  - destruct (pd.empty d) eqn:Hd.
    + unfold Eff.bind. rewrite save_nothing by eauto.
      do 3 eexists. split; [reflexivity|]. split; [reflexivity|].
      rewrite filter_about_singleton. cbn [about].
      destruct (decide (future.1 = region)) as [->|Hne].
      * by rewrite bool_decide_eq_true_2.
      * by rewrite bool_decide_eq_false_2.
    + unfold Eff.bind. rewrite save_frame_path by done. cbv zeta.
      destruct (to_parquet_error d) as [e|].
      * exists output_files,
          {| events := events w ++ [EvLog ERROR (MsgErrorProcessing future.1 e)];
             clock_reads := S (clock_reads w) |},
          [EvLog ERROR (MsgErrorProcessing future.1 e)].
        split; [done|]. split; [done|].
        rewrite filter_about_singleton. cbn [about].
        destruct (decide (future.1 = region)) as [->|Hne].
        -- by rewrite bool_decide_eq_true_2.
        -- by rewrite bool_decide_eq_false_2.
      * do 3 eexists. split; [reflexivity|]. split; [reflexivity|].
        destruct (decide (future.1 = region)) as [->|Hne].
        -- rewrite filter_cons, decide_False by (cbn [about]; done).
           rewrite filter_about_singleton. cbn [about].
           rewrite bool_decide_eq_true_2 by done. by eexists.
        -- rewrite filter_cons, decide_False by (cbn [about]; done).
           rewrite filter_about_singleton. cbn [about].
           by rewrite bool_decide_eq_false_2.
  - exists output_files, w, []. rewrite app_nil_r.
    split; [done|]. split; [done|]. by destruct (decide (future.1 = region)).
  - do 3 eexists. split; [reflexivity|]. split; [reflexivity|].
    rewrite filter_about_singleton. cbn [about].
    destruct (decide (future.1 = region)) as [->|Hne].
    + by rewrite bool_decide_eq_true_2.
    + by rewrite bool_decide_eq_false_2.
Qed.

Lemma collect_about (region : string) (completed : list Future)
    (output_files : gmap string string) (w : World) :
  NoDup completed.*1 ->
  exists output_files' w' evs,
    the_collect completed output_files w = (Ok output_files', w') /\
    events w' = events w ++ evs /\
    (forall future, future ∈ completed -> future.1 = region ->
       reported to_parquet_error region (the_future_result future)
         (filter (fun ev => about region ev = true) evs)) /\
    (region ∉ completed.*1 -> filter (fun ev => about region ev = true) evs = []).
Proof.
  revert output_files w.
  induction completed as [|future rest IH]; intros output_files w Hnodup.
  - exists output_files, w, []. rewrite app_nil_r. split; [done|]. split; [done|].
    split; [|done]. intros f Hf. by apply not_elem_of_nil in Hf.
  - rewrite fmap_cons in Hnodup. apply NoDup_cons in Hnodup as [Hfresh Hnodup].
    destruct (collect_one_about region output_files future w)
      as (files1 & w1 & evs1 & Hone & Hev1 & Habout1).
    destruct (IH files1 w1 Hnodup) as (files2 & w2 & evs2 & Hrest & Hev2 & Hin2 & Hout2).
    exists files2, w2, (evs1 ++ evs2).
    split; [cbn [collect]; unfold Eff.bind; by rewrite Hone|].
    split; [by rewrite Hev2, Hev1, app_assoc|].
    rewrite filter_app.
    destruct (decide (future.1 = region)) as [Heq|Hne].
    + rewrite Hout2, app_nil_r by by rewrite <- Heq. split.
      * intros f Hf Hr. apply elem_of_cons in Hf as [->|Hf]; [done|].
        exfalso. apply Hfresh. rewrite Heq, <- Hr. apply list_elem_of_fmap. by exists f.
      * intros Hnot. exfalso. apply Hnot. rewrite fmap_cons, Heq. by left.
    + rewrite Habout1, app_nil_l. split.
      * intros f Hf Hr. apply elem_of_cons in Hf as [->|Hf]; [done|]. by apply Hin2.
      * intros Hnot. apply Hout2. intros Hin. apply Hnot. rewrite fmap_cons. by right.
Qed.

(** What [run] logs about every configured region. *)
Lemma run_about (as_completed : list Future -> list Future) (w : World) :
  (forall l, as_completed l ≡ₚ l) ->
  datasets_empty = false ->
  exists output_files w' evs,
    the_run as_completed w = (Ok output_files, w') /\
    events w' = events w ++ evs /\
    forall region region_info,
      region_config self !! region = Some region_info ->
      reported to_parquet_error region (the_future_result (region, region_info))
        (filter (fun ev => about region ev = true) evs).
Proof.
  intros Hperm Hempty. rewrite run_dispatch by done.
  set (w1 := {| events := events w ++ [EvLoadReferencePoints; EvLoadGaugeStations] ++
                          (EvSubmit <$> (map_to_list (region_config self)).*1);
                clock_reads := clock_reads w |}).
  destruct (the_collect (as_completed (map_to_list (region_config self))) ∅ w1)
    as [r w'] eqn:Hcollect.
  assert (Hok : exists files evs, r = Ok files /\ events w' = events w1 ++ evs).
  { destruct (collect_about "" (as_completed (map_to_list (region_config self))) ∅ w1)
      as (files & w2 & evs & Hrun & Hev & _).
    { rewrite (Hperm _). apply NoDup_fst_map_to_list. }
    rewrite Hrun in Hcollect. injection Hcollect as <- <-. by eauto. }
  destruct Hok as (files & evs & -> & Hev).
  exists files, w', (([EvLoadReferencePoints; EvLoadGaugeStations] ++
                       (EvSubmit <$> (map_to_list (region_config self)).*1)) ++ evs).
  split; [done|]. split; [by rewrite Hev, app_assoc|].
  intros region region_info Hcfg.
  destruct (collect_about region (as_completed (map_to_list (region_config self))) ∅ w1)
    as (files' & w2 & evs' & Hrun & Hev' & Hin & _).
  { rewrite (Hperm _). apply NoDup_fst_map_to_list. }
  rewrite Hrun in Hcollect. injection Hcollect as <- <-.
  rewrite Hev' in Hev. apply app_inv_head in Hev. subst evs'.
  assert (Hsubmits : filter (fun ev => about region ev = true)
            ([EvLoadReferencePoints; EvLoadGaugeStations] ++
             (EvSubmit <$> (map_to_list (region_config self)).*1)) = []).
  { rewrite filter_app, filter_about_submits.
    by rewrite !filter_cons, filter_nil, !decide_False by (cbn [about]; done). }
  rewrite filter_app, Hsubmits, app_nil_l.
  apply (Hin (region, region_info)); [|done].
  by apply (elem_of_completed self as_completed (region, region_info) Hperm).
Qed.

(** X6: with every submitted future completed once, the orchestrator's
    log of a run on non-empty datasets has at most one line about each
    configured region: none when the region's worker returned [None]
    (the worker's own log has the reason), a warning when it returned an
    empty frame, the error when the task or the write failed, and else
    the line with the path the region was saved to. *)
Theorem run_reports_each_region_once (as_completed : list Future -> list Future)
    (w : World) (region : string) (region_info : gmap string PyVal) :
  (forall l, as_completed l ≡ₚ l) ->
  datasets_empty = false ->
  region_config self !! region = Some region_info ->
  exists output_files w' evs,
    the_run as_completed w = (Ok output_files, w') /\
    events w' = events w ++ evs /\
    reported to_parquet_error region (the_future_result (region, region_info))
      (filter (fun ev => about region ev = true) evs).
Proof.
  intros Hperm Hempty Hcfg.
  destruct (run_about as_completed w Hperm Hempty) as (files & w' & evs & Hrun & Hev & Hall).
  exists files, w', evs. split; [exact Hrun|]. split; [exact Hev|].
  by apply Hall.
Qed.

End RunFurther.

(* ===================================================================== *)
(** * Further properties of process_region *)
(* ===================================================================== *)

(** ** Sorting labels that may be missing *)

Lemma py_lt_None_r (x : PyVal) : py_lt x VNone = Raise (TypeError "'<' not supported").
Proof. by destruct x. Qed.

Lemma py_lt_None_l (y : PyVal) : py_lt VNone y = Raise (TypeError "'<' not supported").
Proof. done. Qed.

Lemma py_lt_raise (x y : PyVal) (e : exn) :
  py_lt x y = Raise e -> e = TypeError "'<' not supported".
Proof. destruct x, y; simpl; congruence. Qed.

Lemma py_insert_inv (x : PyVal) (sorted : list PyVal) :
  match py_insert x sorted with
  | Ok sorted' => length sorted' = S (length sorted)
  | Raise e => e = TypeError "'<' not supported"
  end.
Proof.
  induction sorted as [|y rest IH]; simpl; [done|].
  destruct (py_lt x y) as [[]|e] eqn:Hlt; simpl.
  - done.
  - destruct (py_insert x rest); simpl; [by rewrite IH|done].
  - by apply py_lt_raise in Hlt.
Qed.

Lemma py_sorted_inv (values : list PyVal) :
  match py_sorted values with
  | Ok sorted => length sorted = length values
  | Raise e => e = TypeError "'<' not supported"
  end.
Proof.
  induction values as [|x rest IH]; simpl; [done|].
  destruct (py_sorted rest) as [sorted|e]; simpl; [|done].
  pose proof (py_insert_inv x sorted) as Hins.
  destruct (py_insert x sorted); [|done]. by rewrite Hins, IH.
Qed.

(** Sorting two or more values of which one is [None] raises. *)
Lemma py_sorted_None (values : list PyVal) :
  VNone ∈ values -> (2 <= length values)%nat ->
  py_sorted values = Raise (TypeError "'<' not supported").
Proof.
  induction values as [|x rest IH]; intros Hin Hlen; [by apply not_elem_of_nil in Hin|].
  cbn [py_sorted]. pose proof (py_sorted_inv rest) as Hinv.
  destruct (py_sorted rest) as [sorted|e] eqn:Hs; [|by rewrite Hinv].
  cbn [rbind]. destruct (decide (VNone ∈ rest)) as [Hnone|Hnone].
  - destruct (decide (2 <= length rest)%nat) as [H2|H2].
    + pose proof (IH Hnone H2) as Hc. congruence.
    + destruct rest as [|y [|z rest]];
        [by apply not_elem_of_nil in Hnone| |simpl in H2; lia].
      apply list_elem_of_singleton in Hnone. subst y.
      injection Hs as <-. simpl. by rewrite py_lt_None_r.
  - apply elem_of_cons in Hin as [Hx|Hin]; [|done]. subst x.
    destruct sorted as [|s sorted]; [|done].
    destruct rest; simpl in *; [lia|done].
Qed.

Lemma elem_of_unique (x : PyVal) (cells : list PyVal) :
  x ∈ pd.unique cells <-> x ∈ cells.
Proof.
  induction cells as [|c rest IH]; [done|].
  cbn [pd.unique]. rewrite !elem_of_cons, list_elem_of_filter, IH.
  destruct (decide (x = c)); tauto.
Qed.

Lemma NoDup_unique (cells : list PyVal) : NoDup (pd.unique cells).
Proof.
  induction cells as [|c rest IH]; [constructor|].
  cbn [pd.unique]. constructor.
  - rewrite list_elem_of_filter. tauto.
  - by apply NoDup_filter.
Qed.

Lemma length_unique (cells : list PyVal) :
  (length (pd.unique cells) <= length cells)%nat.
Proof.
  induction cells as [|c rest IH]; [done|].
  cbn [pd.unique length].
  pose proof (length_filter (fun c' => c' <> c) (pd.unique rest)). lia.
Qed.

Lemma unique_nil_inv (cells : list PyVal) : pd.unique cells = [] -> cells = [].
Proof. by destruct cells. Qed.

(** The distinct values of a column are as many as the distinct values
    it can take. *)
Lemma length_unique_le (cells values : list PyVal) :
  (forall x, x ∈ cells -> x ∈ values) ->
  (length (pd.unique cells) <= length values)%nat.
Proof.
  intros Hsub. apply submseteq_length, NoDup_submseteq; [apply NoDup_unique|].
  intros x Hx. by apply Hsub, elem_of_unique.
Qed.

Lemma two_elements {A} (x y : A) (l : list A) :
  x ∈ l -> y ∈ l -> x <> y -> (2 <= length l)%nat.
Proof.
  intros Hx Hy Hne. destruct l as [|a [|b l]]; simpl; [|exfalso|lia].
  - by apply not_elem_of_nil in Hx.
  - apply list_elem_of_singleton in Hx, Hy. congruence.
Qed.

(** A sub-region cell is a label or a missing value. *)
Lemma sub_region_cell (ps : list (WeightedMapping * WeightedGauge)) (v : PyVal) :
  v ∈ sub_region_cells ps -> v = VNone \/ is_str v.
Proof.
  unfold sub_region_cells. intros (p & -> & _)%list_elem_of_fmap.
  destruct (sub_region (gauge p.2)); simpl; auto.
Qed.

Lemma unique_all_None (cells : list PyVal) :
  Forall (fun v => v = VNone) cells -> py_sorted (pd.unique cells) = Ok (pd.unique cells).
Proof.
  intros Hall. destruct cells as [|c rest]; [done|].
  apply Forall_cons in Hall as [-> Hrest]. cbn [pd.unique].
  assert (filter (fun c' => c' <> VNone) (pd.unique rest) = []) as ->; [|done].
  apply unique_Forall in Hrest. induction Hrest as [|x xs -> _ IH]; [done|].
  by rewrite filter_cons, decide_False by (intros H; by apply H).
Qed.

(** The distinct sub-region labels can be sorted unless a missing label
    stands beside a label. *)
Lemma sub_region_cells_sortable (ps : list (WeightedMapping * WeightedGauge)) :
  is_ok (py_sorted (pd.unique (sub_region_cells ps))) = true <->
  ~ (VNone ∈ sub_region_cells ps /\ exists s, VStr s ∈ sub_region_cells ps).
Proof.
  split.
  - intros Hok [Hnone [s Hs]].
    rewrite py_sorted_None in Hok; [done|by apply elem_of_unique|].
    apply (two_elements VNone (VStr s)); [by apply elem_of_unique..|done].
  - intros Hmixed. destruct (decide (VNone ∈ sub_region_cells ps)) as [Hnone|Hnone].
    + rewrite unique_all_None; [done|]. apply Forall_forall. intros v Hv.
      destruct (sub_region_cell ps v Hv) as [->|Hstr]; [done|].
      destruct v; try done. exfalso. apply Hmixed. eauto.
    + destruct (py_sorted_strings (pd.unique (sub_region_cells ps))) as (sorted & -> & _);
        [|done].
      apply unique_Forall, Forall_forall. intros v Hv.
      destruct (sub_region_cell ps v Hv) as [->|Hstr]; done.
Qed.

(** ** The lines of the statistics block *)

Lemma py_insert_perm (x : PyVal) (sorted sorted' : list PyVal) :
  py_insert x sorted = Ok sorted' -> sorted' ≡ₚ x :: sorted.
Proof.
  revert sorted'. induction sorted as [|y rest IH]; intros sorted'; simpl.
  - by intros [= <-].
  - destruct (py_lt x y) as [[]|e]; simpl; [by intros [= <-]| |done].
    destruct (py_insert x rest) as [rest'|e]; simpl; [|done].
    intros [= <-]. rewrite (IH rest' eq_refl). apply Permutation_swap.
Qed.

Lemma py_sorted_perm (values sorted : list PyVal) :
  py_sorted values = Ok sorted -> sorted ≡ₚ values.
Proof.
  revert sorted. induction values as [|x rest IH]; intros sorted; simpl.
  - by intros [= <-].
  - destruct (py_sorted rest) as [sorted0|e]; simpl; [|done].
    intros Hins%py_insert_perm. by rewrite Hins, (IH sorted0 eq_refl).
Qed.

Section StatisticsLines.

Variables (region : string) (region_name : PyVal).
Variable ps : list (WeightedMapping * WeightedGauge).

Local Abbreviation frame := (frame_of region region_name ps).

(** The block of one label: nothing for a label that is not truthy,
    else six INFO lines, the first of which names the label. *)
Lemma log_sub_region_lines (v : PyVal) :
  exists out,
    (forall l, log_sub_region frame v l = (Ok tt, l ++ out)) /\
    Forall (sub_region_line v) out /\
    ((INFO, MsgSubregion v) ∈ out <-> truthy v = true).
Proof.
  unfold log_sub_region. destruct (truthy v).
  - unfold Eff.bind, Eff.lift. rewrite select_frame.
    rewrite col_county_fips, col_station_id, col_distance_meters, col_weight.
    destruct (mean_floats
      ((fun p => distance_meters (gauge p.2)) <$>
         filter (fun p => opt_str (sub_region (gauge p.2)) = v) ps)) as [md ->].
    destruct (mean_floats
      ((fun p => weight p.2) <$>
         filter (fun p => opt_str (sub_region (gauge p.2)) = v) ps)) as [mw ->].
    eexists. split; [|split].
    + intros l. unfold log, Eff.modify. simpl.
      rewrite <- !app_assoc. simpl. reflexivity.
    + repeat constructor; simpl; congruence.
    + split; [done|]. intros _. apply elem_of_cons. by left.
  - exists []. split; [|split].
    + intros l. unfold Eff.ret. by rewrite app_nil_r.
    + constructor.
    + split; [by intros H%not_elem_of_nil|done].
Qed.

Lemma for_each_sub_region_lines (ordered : list PyVal) :
  exists out,
    (forall l, Eff.for_each ordered (log_sub_region frame) l = (Ok tt, l ++ out)) /\
    Forall (fun entry => exists v, v ∈ ordered /\ sub_region_line v entry) out /\
    (forall v, (INFO, MsgSubregion v) ∈ out <-> v ∈ ordered /\ truthy v = true).
Proof.
  induction ordered as [|x xs (out & Hrun & Hlines & Hblocks)]; simpl.
  - exists []. split; [|split].
    + intros l. unfold Eff.ret. by rewrite app_nil_r.
    + constructor.
    + intros v. split; [by intros H%not_elem_of_nil|by intros [H%not_elem_of_nil _]].
  - destruct (log_sub_region_lines x) as (out' & Hx & Hlines' & Hblock').
    exists (out' ++ out). split; [|split].
    + intros l. unfold Eff.bind. by rewrite Hx, Hrun, app_assoc.
    + apply Forall_app. split.
      * eapply Forall_impl; [exact Hlines'|]. intros entry Hentry.
        exists x. split; [by left|done].
      * eapply Forall_impl; [exact Hlines|]. intros entry (v & Hv & Hentry).
        exists v. split; [by right|done].
    + intros v. rewrite elem_of_app, elem_of_cons, Hblocks. split.
      * intros [Hin|[Hin Ht]]; [|by auto].
        assert (v = x) as ->.
        { apply (proj1 (Forall_forall _ _) Hlines') in Hin as [_ Hv]. by apply Hv. }
        split; [by left|by apply Hblock'].
      * intros [[->|Hin] Ht]; [left; by apply Hblock'|by auto].
Qed.

(** The statistics block on a table with rows: the six summary lines,
    then, when the distinct labels can be sorted, the blocks of the
    truthy labels; it raises exactly when sorting does. *)
Lemma log_statistics_lines :
  ps <> [] ->
  exists blocks,
    (forall l,
       log_statistics region frame l =
       match py_sorted (pd.unique (sub_region_cells ps)) with
       | Ok _ => (Ok tt, l ++ summary_lines region ps ++ blocks)
       | Raise e => (Raise e, l ++ summary_lines region ps)
       end) /\
    Forall (fun entry => entry.1 = INFO) blocks /\
    (is_ok (py_sorted (pd.unique (sub_region_cells ps))) = true ->
     forall v, (INFO, MsgSubregion v) ∈ blocks <->
               v ∈ sub_region_cells ps /\ truthy v = true).
Proof.
  intros Hps. unfold log_statistics.
  rewrite frame_of_empty, bool_decide_eq_false_2 by done. cbn [negb].
  destruct (py_sorted (pd.unique (sub_region_cells ps))) as [ordered|e] eqn:Hsorted.
  - destruct (for_each_sub_region_lines ordered) as (out & Hrun & Hlines & Hblocks).
    exists out. split; [|split].
    + intros l. unfold Eff.bind, Eff.lift.
      rewrite col_county_fips, col_station_id, col_sub_region.
      fold (sub_region_cells ps). rewrite Hsorted.
      unfold log, Eff.modify. cbn -[Eff.for_each frame_of summary_lines].
      rewrite Hrun, <- !app_assoc.
      unfold pd.len, frame_of. cbn [rows]. by rewrite length_fmap.
    + eapply Forall_impl; [exact Hlines|]. by intros entry (v & _ & Hinfo & _).
    + intros _ v. rewrite Hblocks.
      apply py_sorted_perm in Hsorted. by rewrite Hsorted, elem_of_unique.
  - exists []. split; [|split].
    + intros l. unfold Eff.bind, Eff.lift.
      rewrite col_county_fips, col_station_id, col_sub_region.
      fold (sub_region_cells ps). rewrite Hsorted.
      unfold log, Eff.modify. cbn -[frame_of summary_lines].
      rewrite <- !app_assoc.
      unfold pd.len, frame_of. cbn [rows]. by rewrite length_fmap.
    + constructor.
    + done.
Qed.

End StatisticsLines.

(** ** The outcomes of process_region *)

Lemma nunique_strings (cells : list PyVal) :
  Forall is_str cells -> pd.nunique cells = length (pd.unique cells).
Proof.
  intros Hstr. unfold pd.nunique. f_equal. f_equal.
  induction Hstr as [|c rest Hc _ IH]; [done|].
  rewrite filter_cons, decide_True, IH; [done|]. by destruct c.
Qed.

Lemma nunique_positive (cells : list PyVal) :
  Forall is_str cells -> cells <> [] -> (1 <= pd.nunique cells)%nat.
Proof.
  intros Hstr Hne. rewrite nunique_strings by done.
  destruct cells as [|c rest]; [done|]. simpl. lia.
Qed.

Section ProcessRegionOutcomes.

Context {GeoDataFrame GaugeFinder : Type}.
Variable NearestGaugeFinder_init : Result GaugeFinder.
Variable find_nearest :
  GaugeFinder -> GeoDataFrame -> GeoDataFrame -> string -> Result (list RawMapping).
Variables (region : string) (region_info : gmap string PyVal).
Variables reference_points gauge_stations : GeoDataFrame.

Local Abbreviation the_process_region :=
  (process_region NearestGaugeFinder_init find_nearest region region_info
     reference_points gauge_stations).
Local Abbreviation the_found_mappings :=
  (found_mappings NearestGaugeFinder_init find_nearest reference_points gauge_stations
     region).
Local Abbreviation the_calculator :=
  (init_weight_calculator region region_info reference_points gauge_stations).
Local Abbreviation joined_state_codes :=
  (rbind (dict_get region_info "state_codes") (py_join ", ")).
Local Abbreviation the_pairs ms :=
  (pairs (WeightCalculator.weigh_mapping the_calculator <$> ms)).
Local Abbreviation opening joined :=
  [(INFO, MsgProcessingRegion region); (INFO, MsgStatesIncluded joined)].

(** Every path through [process_region]: what it returns and what it
    appends to the log. *)
Lemma process_region_outcome :
  exists blocks,
    Forall (fun entry => entry.1 = INFO) blocks /\
    (forall joined ms name,
       joined_state_codes = Ok joined ->
       the_found_mappings = Ok ms -> the_pairs ms <> [] ->
       region_info !! "name" = Some name ->
       is_ok (py_sorted (pd.unique (sub_region_cells (the_pairs ms)))) = true ->
       forall v, (INFO, MsgSubregion v) ∈ blocks <->
                 v ∈ sub_region_cells (the_pairs ms) /\ truthy v = true) /\
    forall l,
      the_process_region l =
      match joined_state_codes with
      | Raise e =>
          (Ok None,
           l ++ [(INFO, MsgProcessingRegion region); (ERROR, MsgErrorProcessing region e)])
      | Ok joined =>
          match the_found_mappings with
          | Raise e =>
              (Ok None, l ++ opening joined ++ [(ERROR, MsgErrorProcessing region e)])
          | Ok [] =>
              (Ok None, l ++ opening joined ++ [(WARNING, MsgNoMappings region)])
          | Ok (m :: ms) =>
              match the_pairs (m :: ms) with
              | [] => (Ok (Some {| columns := []; rows := [] |}), l ++ opening joined)
              | p :: ps =>
                  match region_info !! "name" with
                  | None =>
                      (Ok None,
                       l ++ opening joined ++
                         [(ERROR, MsgErrorProcessing region (KeyError "name"))])
                  | Some name =>
                      match py_sorted (pd.unique (sub_region_cells (p :: ps))) with
                      | Ok _ =>
                          (Ok (Some (frame_of region name (p :: ps))),
                           l ++ opening joined ++ summary_lines region (p :: ps) ++ blocks)
                      | Raise e =>
                          (Ok None,
                           l ++ opening joined ++ summary_lines region (p :: ps) ++
                             [(ERROR, MsgErrorProcessing region e)])
                      end
                  end
              end
          end
      end.
Proof.
  unfold found_mappings.
  destruct (dict_get region_info "state_codes") as [sc|e] eqn:Hsc; cbn [rbind].
  2: { exists []. split; [constructor|]. split; [by intros|].
       intros l. unfold process_region, process_region_try, Eff.try_except.
       eff_run. rewrite Hsc. eff_run. by rewrite <- app_assoc. }
  destruct (py_join ", " sc) as [joined|e] eqn:Hjoin.
  2: { exists []. split; [constructor|]. split; [by intros|].
       intros l. unfold process_region, process_region_try, Eff.try_except.
       eff_run. rewrite Hsc. eff_run. rewrite Hjoin. eff_run. by rewrite <- app_assoc. }
  destruct NearestGaugeFinder_init as [gf|e]; cbn [rbind].
  2: { exists []. split; [constructor|]. split; [by intros|].
       intros l. unfold process_region, process_region_try, Eff.try_except.
       eff_run. rewrite Hsc. eff_run. rewrite Hjoin. eff_run.
       by rewrite <- !app_assoc. }
  destruct (find_nearest gf reference_points gauge_stations region)
    as [[|m ms]|e] eqn:Hfind.
  3: { exists []. split; [constructor|]. split; [by intros|].
       intros l. unfold process_region, process_region_try, Eff.try_except.
       eff_run. rewrite Hsc. eff_run. rewrite Hjoin. eff_run. rewrite Hfind. eff_run.
       by rewrite <- !app_assoc. }
  { exists []. split; [constructor|]. split; [by intros ? ? ? _ [= <-]|].
    intros l. unfold process_region, process_region_try, Eff.try_except.
    eff_run. rewrite Hsc. eff_run. rewrite Hjoin. eff_run. rewrite Hfind. eff_run.
    by rewrite <- !app_assoc. }
  assert (Hrun : forall l,
    process_region (Ok gf) find_nearest region region_info reference_points
      gauge_stations l =
    Eff.try_except
      (let* records :=
         Eff.lift (append_mappings region region_info (WeightCalculator.weigh_mapping the_calculator <$> m :: ms) []) in
       let df := pd.from_records records in
       log_statistics region df >> Eff.ret (Some df))
      (fun e => log ERROR (MsgErrorProcessing region e) >> Eff.ret None)
      (l ++ opening joined)).
  { intros l. unfold process_region, process_region_try, Eff.try_except.
    eff_run. rewrite Hsc. eff_run. rewrite Hjoin. eff_run.
    rewrite Hfind. eff_run. rewrite calculate_weights_default. eff_run.
    by rewrite <- !app_assoc. }
  rewrite append_mappings_spec in Hrun.
  destruct (the_pairs (m :: ms)) as [|p ps] eqn:Hps.
  { exists []. split; [constructor|]. split; [by intros ? ? ? _ [= <-]|].
    intros l. rewrite (Hrun l). unfold Eff.try_except. eff_run.
    rewrite (bind_oblivious _ _ (Ok tt) []) by (by rewrite app_nil_r).
    eff_run. by rewrite app_nil_r. }
  destruct (region_info !! "name") as [name|] eqn:Hname.
  2: { exists []. split; [constructor|]. split; [by intros|].
       intros l. rewrite (Hrun l). unfold Eff.try_except. eff_run.
       by rewrite <- !app_assoc. }
  destruct (log_statistics_lines region name (p :: ps)) as (blocks & Hstat & Hinfo & Hblocks);
    [done|].
  exists blocks. split; [exact Hinfo|]. split.
  { intros joined' ms' name' _ [= <-] _ _ Hok. rewrite Hps in *. by apply Hblocks. }
  intros l. rewrite (Hrun l). unfold Eff.try_except.
  rewrite app_nil_l. eff_run. rewrite from_records_pairs by done.
  destruct (py_sorted (pd.unique (sub_region_cells (p :: ps)))) as [ordered|e].
  - rewrite (bind_oblivious _ _ (Ok tt) (summary_lines region (p :: ps) ++ blocks))
      by (by rewrite Hstat).
    eff_run. by rewrite <- !app_assoc.
  - rewrite (bind_oblivious _ _ (Raise e) (summary_lines region (p :: ps)))
      by (by rewrite Hstat).
    unfold Eff.bind, log, Eff.modify, Eff.ret. by rewrite <- !app_assoc.
Qed.

Lemma total_counties_bounds (ms : list RawMapping) :
  the_pairs ms <> [] ->
  (1 <= pd.nunique ((fun p => VStr (w_county_fips p.1)) <$> the_pairs ms) <= length ms)%nat.
Proof.
  intros Hne. split.
  - apply nunique_positive; [|by intros H%fmap_nil_inv].
    apply Forall_fmap, Forall_forall. by intros p _.
  - rewrite nunique_strings by (apply Forall_fmap, Forall_forall; by intros p _).
    rewrite <- (length_fmap (fun m => VStr (county_fips m)) ms).
    apply length_unique_le. intros x ([m g] & -> & Hp)%list_elem_of_fmap.
    apply elem_of_pairs in Hp as [(m0 & -> & Hm0)%list_elem_of_fmap _].
    apply list_elem_of_fmap. by exists m0.
Qed.

Lemma total_stations_bounds (ps : list (WeightedMapping * WeightedGauge)) :
  ps <> [] ->
  (1 <= pd.nunique ((fun p => VStr (station_id (gauge p.2))) <$> ps) <= length ps)%nat.
Proof.
  intros Hne. split.
  - apply nunique_positive; [|by intros H%fmap_nil_inv].
    apply Forall_fmap, Forall_forall. by intros p _.
  - rewrite nunique_strings by (apply Forall_fmap, Forall_forall; by intros p _).
    eapply Nat.le_trans; [apply length_unique|]. by rewrite length_fmap.
Qed.

Lemma not_sub_region_line (joined : string) (ps : list (WeightedMapping * WeightedGauge))
    (v : PyVal) :
  (INFO, MsgSubregion v) ∉ opening joined ++ summary_lines region ps.
Proof.
  unfold summary_lines. rewrite elem_of_app, !elem_of_cons, !elem_of_nil.
  intros [[H|[H|[]]]|[H|[H|[H|[H|[H|[H|[]]]]]]]]; discriminate H.
Qed.

(** X7: a region whose configuration has no usable [state_codes] (the key
    is missing, or its value cannot be joined) is given up before the
    gauge finder is built: [process_region] returns [None] and logs the
    opening line and the error, nothing else. *)
Theorem process_region_bad_state_codes (e : exn) (l : Log) :
  joined_state_codes = Raise e ->
  the_process_region l =
  (Ok None,
   l ++ [(INFO, MsgProcessingRegion region); (ERROR, MsgErrorProcessing region e)]).
Proof.
  intros Hsc. destruct process_region_outcome as (blocks & _ & _ & Hrun).
  by rewrite (Hrun l), Hsc.
Qed.

(** X8: an exception of the gauge finder (of its constructor or of
    [find_nearest]) is logged after the two opening lines, and the region
    returns [None]. *)
Theorem process_region_finder_failure (joined : string) (e : exn) (l : Log) :
  joined_state_codes = Ok joined ->
  the_found_mappings = Raise e ->
  the_process_region l =
  (Ok None, l ++ opening joined ++ [(ERROR, MsgErrorProcessing region e)]).
Proof.
  intros Hsc Hfound. destruct process_region_outcome as (blocks & _ & _ & Hrun).
  by rewrite (Hrun l), Hsc, Hfound.
Qed.

(** X9: with no mapping found, the log gets the two opening lines and
    one warning, and no error line. *)
Theorem process_region_no_mappings_warned (joined : string) (l : Log) :
  joined_state_codes = Ok joined ->
  the_found_mappings = Ok [] ->
  the_process_region l =
  (Ok None, l ++ opening joined ++ [(WARNING, MsgNoMappings region)]).
Proof.
  intros Hsc Hfound. destruct process_region_outcome as (blocks & _ & _ & Hrun).
  by rewrite (Hrun l), Hsc, Hfound.
Qed.

(** X10: when mappings are found but the weighted mappings list no
    candidate gauge, [process_region] returns a frame, not [None]: the
    frame without rows and columns; the statistics block is skipped and
    [region_info['name']] is not read. *)
Theorem process_region_no_candidate (joined : string) (ms : list RawMapping) (l : Log) :
  joined_state_codes = Ok joined ->
  the_found_mappings = Ok ms -> ms <> [] ->
  the_pairs ms = [] ->
  the_process_region l =
  (Ok (Some {| columns := []; rows := [] |}), l ++ opening joined).
Proof.
  intros Hsc Hfound Hms Hps. destruct process_region_outcome as (blocks & _ & _ & Hrun).
  destruct ms as [|m ms]; [done|]. by rewrite (Hrun l), Hsc, Hfound, Hps.
Qed.

(** X11: with a candidate gauge to record and no [name] in the region
    information, the first record raises [KeyError]: [process_region]
    returns [None] and logs the error right after the opening lines. *)
Theorem process_region_missing_name (joined : string) (ms : list RawMapping) (l : Log) :
  joined_state_codes = Ok joined ->
  the_found_mappings = Ok ms ->
  the_pairs ms <> [] ->
  region_info !! "name" = None ->
  the_process_region l =
  (Ok None,
   l ++ opening joined ++ [(ERROR, MsgErrorProcessing region (KeyError "name"))]).
Proof.
  intros Hsc Hfound Hps Hname. destruct process_region_outcome as (blocks & _ & _ & Hrun).
  destruct ms as [|m ms]; [done|]. rewrite (Hrun l), Hsc, Hfound.
  destruct (the_pairs (m :: ms)); [done|]. by rewrite Hname.
Qed.

(** X12: when one recorded gauge has no sub-region and another has a
    label, the summary is logged, sorting the labels raises [TypeError],
    and [process_region] returns [None] although the table was built. *)
Theorem process_region_mixed_labels (joined : string) (ms : list RawMapping)
    (name : PyVal) (p p' : WeightedMapping * WeightedGauge) (label : string) (l : Log) :
  joined_state_codes = Ok joined ->
  the_found_mappings = Ok ms ->
  region_info !! "name" = Some name ->
  p ∈ the_pairs ms -> sub_region (gauge p.2) = None ->
  p' ∈ the_pairs ms -> sub_region (gauge p'.2) = Some label ->
  the_process_region l =
  (Ok None,
   l ++ opening joined ++ summary_lines region (the_pairs ms) ++
     [(ERROR, MsgErrorProcessing region (TypeError "'<' not supported"))]).
Proof.
  intros Hsc Hfound Hname Hp Hnone Hp' Hlabel.
  destruct process_region_outcome as (blocks & _ & _ & Hrun).
  destruct ms as [|m ms]; [by apply not_elem_of_nil in Hp|].
  rewrite (Hrun l), Hsc, Hfound.
  destruct (the_pairs (m :: ms)) as [|q qs] eqn:Hps; [by apply not_elem_of_nil in Hp|].
  rewrite Hname, py_sorted_None; [done| |].
  - apply elem_of_unique, list_elem_of_fmap. exists p. by rewrite Hnone.
  - apply (two_elements VNone (VStr label)); [| |done]; apply elem_of_unique, list_elem_of_fmap.
    + exists p. by rewrite Hnone.
    + exists p'. by rewrite Hlabel.
Qed.

(** X13: [process_region] returns a frame exactly when the state codes
    can be joined, the gauge finder yields at least one mapping and, if a
    candidate gauge is recorded, the region information has a [name] and
    the sub-region cells do not mix missing values with labels. *)
Theorem process_region_frame_iff (l : Log) :
  (exists df l', the_process_region l = (Ok (Some df), l')) <->
  exists joined ms,
    joined_state_codes = Ok joined /\ the_found_mappings = Ok ms /\ ms <> [] /\
    (the_pairs ms <> [] ->
     is_Some (region_info !! "name") /\
     ~ (VNone ∈ sub_region_cells (the_pairs ms) /\
        exists s, VStr s ∈ sub_region_cells (the_pairs ms))).
Proof.
  destruct process_region_outcome as (blocks & _ & _ & Hrun). rewrite (Hrun l). clear Hrun.
  destruct joined_state_codes as [joined|e].
  2: { split; [by intros (df & l' & H)|by intros (joined & ms & H & _)]. }
  destruct the_found_mappings as [[|m ms]|e].
  3: { split; [by intros (df & l' & H)|by intros (joined' & ms & _ & H & _)]. }
  { split; [by intros (df & l' & H)|]. by intros (joined' & ms & _ & [= <-] & H & _). }
  pose proof (sub_region_cells_sortable (the_pairs (m :: ms))) as Hsortable.
  destruct (the_pairs (m :: ms)) as [|p ps] eqn:Hps.
  { split; [|by eauto]. intros _. exists joined, (m :: ms). rewrite Hps. by repeat split. }
  destruct (region_info !! "name") as [name|].
  2: { split; [by intros (df & l' & H)|].
       intros (joined' & ms' & _ & [= <-] & _ & H). rewrite Hps in H.
       destruct H as [[name H] _]; done. }
  destruct (py_sorted (pd.unique (sub_region_cells (p :: ps)))) as [ordered|e].
  - split; [|by eauto]. intros _. exists joined, (m :: ms). rewrite Hps.
    repeat split; [done|by eauto|]. by apply Hsortable.
  - split; [by intros (df & l' & H)|].
    intros (joined' & ms' & _ & [= <-] & _ & H). rewrite Hps in H.
    destruct H as [_ H]; [done|]. by apply Hsortable in H.
Qed.

(** X14: when a frame with rows is returned, the summary logged for the
    region counts the rows of the frame as its mappings, at least one
    county and at most as many counties as reference points were mapped,
    and at least one station and at most as many stations as rows. *)
Theorem process_region_totals (l l' : Log) (df : DataFrame) :
  the_process_region l = (Ok (Some df), l') ->
  rows df <> [] ->
  exists ms out counties stations,
    the_found_mappings = Ok ms /\ l' = l ++ out /\
    (INFO, MsgTotalMappings (length (rows df))) ∈ out /\
    (INFO, MsgTotalCounties counties) ∈ out /\ (1 <= counties <= length ms)%nat /\
    (INFO, MsgTotalStations stations) ∈ out /\ (1 <= stations <= length (rows df))%nat.
Proof.
  destruct process_region_outcome as (blocks & _ & _ & Hrun). rewrite (Hrun l). clear Hrun.
  destruct joined_state_codes as [joined|e]; [|done].
  destruct the_found_mappings as [[|m ms]|e]; [done| |done].
  pose proof (total_counties_bounds (m :: ms)) as Hcounties.
  destruct (the_pairs (m :: ms)) as [|p ps]; [by intros [= <- _]|].
  destruct (region_info !! "name") as [name|]; [|done].
  destruct (py_sorted (pd.unique (sub_region_cells (p :: ps)))) as [ordered|e]; [|done].
  intros [= <- <-] _. eexists (m :: ms), _, _, _. split; [done|]. split; [done|].
  assert (Hlen : length (rows (frame_of region name (p :: ps))) = length (p :: ps))
    by (unfold frame_of; cbn [rows]; by rewrite length_fmap).
  rewrite Hlen.
  assert (Hsummary : forall entry,
    entry ∈ summary_lines region (p :: ps) ->
    entry ∈ opening joined ++ summary_lines region (p :: ps) ++ blocks).
  { intros entry Hentry. apply elem_of_app. right. apply elem_of_app. by left. }
  split; [apply Hsummary; unfold summary_lines; by repeat constructor|].
  split; [apply Hsummary; unfold summary_lines; by repeat constructor|].
  split; [by apply Hcounties|].
  split; [apply Hsummary; unfold summary_lines; by repeat constructor|].
  by apply total_stations_bounds.
Qed.

(** X15: [process_region] never raises and its result is explained by
    what it logs: with a frame returned, every appended line is an INFO
    line; with [None] returned, the last appended line, and only that
    one, is the warning that no mapping was found or the error with the
    exception caught. *)
Theorem process_region_result_explained (l : Log) :
  exists r out,
    the_process_region l = (Ok r, l ++ out) /\
    match r with
    | Some _ => Forall (fun entry => entry.1 = INFO) out
    | None =>
        exists lines last_line,
          out = lines ++ [last_line] /\
          Forall (fun entry => entry.1 = INFO) lines /\
          (last_line = (WARNING, MsgNoMappings region) \/
           exists e, last_line = (ERROR, MsgErrorProcessing region e))
    end.
Proof.
  destruct process_region_outcome as (blocks & Hinfo & _ & Hrun).
  assert (Hsummary : forall ps, Forall (fun entry : LogEntry => entry.1 = INFO)
                                  (summary_lines region ps))
    by (intros ps; unfold summary_lines; by repeat constructor).
  destruct joined_state_codes as [joined|e] eqn:Hsc.
  2: { eexists None, _. split; [by rewrite (Hrun l)|].
       exists [(INFO, MsgProcessingRegion region)], (ERROR, MsgErrorProcessing region e).
       split; [done|]. split; [by repeat constructor|by eauto]. }
  destruct the_found_mappings as [[|m ms]|e] eqn:Hfound.
  3: { eexists None, _. split; [by rewrite (Hrun l)|].
       exists (opening joined), (ERROR, MsgErrorProcessing region e).
       split; [done|]. split; [by repeat constructor|by eauto]. }
  { eexists None, _. split; [by rewrite (Hrun l)|].
    exists (opening joined), (WARNING, MsgNoMappings region).
    split; [done|]. split; [by repeat constructor|by eauto]. }
  destruct (the_pairs (m :: ms)) as [|p ps] eqn:Hps.
  { eexists (Some _), _. split; [by rewrite (Hrun l)|].
    by repeat constructor. }
  destruct (region_info !! "name") as [name|] eqn:Hname.
  2: { eexists None, _. split; [by rewrite (Hrun l)|].
       exists (opening joined), (ERROR, MsgErrorProcessing region (KeyError "name")).
       split; [done|]. split; [by repeat constructor|by eauto]. }
  destruct (py_sorted (pd.unique (sub_region_cells (p :: ps)))) as [ordered|e] eqn:Hsorted.
  - eexists (Some _), _. split; [by rewrite (Hrun l)|].
    apply Forall_app. split; [by repeat constructor|].
    apply Forall_app. by split.
  - eexists None, _. split; [by rewrite (Hrun l)|].
    exists (opening joined ++ summary_lines region (p :: ps)),
      (ERROR, MsgErrorProcessing region e).
    split; [by rewrite <- app_assoc|].
    split; [|by eauto]. apply Forall_app. split; [by repeat constructor|done].
Qed.

(** X16: when a frame is returned, the log has the statistics of a
    sub-region exactly for the non-empty labels of the recorded gauges:
    none for gauges without a label, none for an empty label. *)
Theorem process_region_sub_region_blocks (l l' : Log) (df : DataFrame) (v : PyVal) :
  the_process_region l = (Ok (Some df), l') ->
  exists ms out,
    the_found_mappings = Ok ms /\ l' = l ++ out /\
    ((INFO, MsgSubregion v) ∈ out <->
     exists s p, v = VStr s /\ s <> "" /\ p ∈ the_pairs ms /\
                 sub_region (gauge p.2) = Some s).
Proof.
  destruct process_region_outcome as (blocks & _ & Hblocks & Hrun).
  rewrite (Hrun l). clear Hrun.
  destruct joined_state_codes as [joined|e]; [|done].
  destruct the_found_mappings as [[|m ms]|e]; [done| |done].
  specialize (Hblocks joined (m :: ms)).
  destruct (the_pairs (m :: ms)) as [|p ps] eqn:Hps.
  { intros [= _ <-]. exists (m :: ms), (opening joined). rewrite Hps. split; [done|]. split; [done|].
    split.
    - rewrite !elem_of_cons, elem_of_nil. by intros [H|[H|[]]].
    - intros (s & q & _ & _ & Hq & _). by apply not_elem_of_nil in Hq. }
  destruct (region_info !! "name") as [name|]; [|done].
  specialize (Hblocks name eq_refl eq_refl).
  destruct (py_sorted (pd.unique (sub_region_cells (p :: ps)))) as [ordered|e]; [|done].
  intros [= _ <-]. exists (m :: ms), ((opening joined ++ summary_lines region (p :: ps)) ++ blocks).
  rewrite Hps. split; [done|]. split; [reflexivity|].
  rewrite elem_of_app, Hblocks by done. split.
  - intros [H|[Hv Ht]]; [by apply not_sub_region_line in H|].
    apply list_elem_of_fmap in Hv as (q & -> & Hq).
    destruct (sub_region (gauge q.2)) as [s|] eqn:Hs; [|done].
    exists s, q. repeat split; [|done..]. intros ->. done.
  - intros (s & q & -> & Hs & Hq & Hlabel). right. split.
    + apply list_elem_of_fmap. exists q. by rewrite Hlabel.
    + simpl. by rewrite bool_decide_eq_false_2.
Qed.

(** The results of [process_region] that have rows. *)
Lemma process_region_frame_with_rows (l : Log) (d : DataFrame) :
  ((the_process_region l).1 = Ok (Some d) /\ pd.empty d = false) <->
  exists joined ms name,
    joined_state_codes = Ok joined /\ the_found_mappings = Ok ms /\
    the_pairs ms <> [] /\ region_info !! "name" = Some name /\
    ~ (VNone ∈ sub_region_cells (the_pairs ms) /\
       exists s, VStr s ∈ sub_region_cells (the_pairs ms)) /\
    d = frame_of region name (the_pairs ms).
Proof.
  destruct process_region_outcome as (blocks & _ & _ & Hrun). rewrite (Hrun l). clear Hrun.
  destruct joined_state_codes as [joined|e].
  2: { split; [by intros [H _]|by intros (joined & ms & name & H & _)]. }
  destruct the_found_mappings as [[|m ms]|e].
  3: { split; [by intros [H _]|by intros (joined' & ms & name & _ & H & _)]. }
  { split; [by intros [H _]|]. by intros (joined' & ms & name & _ & [= <-] & H & _). }
  pose proof (sub_region_cells_sortable (the_pairs (m :: ms))) as Hsortable.
  destruct (the_pairs (m :: ms)) as [|p ps] eqn:Hps.
  { split.
    - intros [[= <-] Hd]. by vm_compute in Hd.
    - intros (joined' & ms' & name & _ & [= <-] & H & _). by rewrite Hps in H. }
  destruct (region_info !! "name") as [name|].
  2: { split; [by intros [H _]|]. by intros (joined' & ms' & name & _ & _ & _ & H & _). }
  destruct (py_sorted (pd.unique (sub_region_cells (p :: ps)))) as [ordered|e].
  - split.
    + intros [[= <-] _]. exists joined, (m :: ms), name. rewrite Hps.
      repeat split; [done|]. by apply Hsortable.
    + intros (joined' & ms' & name' & _ & [= <-] & _ & [= <-] & _ & ->). rewrite Hps.
      split; [done|]. by rewrite frame_of_empty, bool_decide_eq_false_2.
  - split; [by intros [H _]|].
    intros (joined' & ms' & name' & _ & [= <-] & _ & _ & H & _). rewrite Hps in H.
    by apply Hsortable in H.
Qed.

(** The results of [process_region] when no candidate gauge is recorded. *)
Lemma process_region_without_rows (joined : string) (ms : list RawMapping) (l : Log) :
  joined_state_codes = Ok joined ->
  the_found_mappings = Ok ms ->
  the_pairs ms = [] ->
  (the_process_region l).1 =
  Ok (match ms with [] => None | _ :: _ => Some {| columns := []; rows := [] |} end).
Proof.
  intros Hsc Hfound Hps. destruct process_region_outcome as (blocks & _ & _ & Hrun).
  rewrite (Hrun l), Hsc, Hfound. destruct ms as [|m ms]; [done|]. by rewrite Hps.
Qed.

End ProcessRegionOutcomes.

(** ** Regions from the worker to the result of the run *)

Section RunOutcomes.

Context {GeoDataFrame GaugeFinder : Type}.
Variable gdf_empty : GeoDataFrame -> bool.
Variable NearestGaugeFinder_init : Result GaugeFinder.
Variable find_nearest :
  GaugeFinder -> GeoDataFrame -> GeoDataFrame -> string -> Result (list RawMapping).
Variable now : nat -> string.
Variables loaded_reference_points loaded_gauge_stations : GeoDataFrame.
Variable to_parquet_error : DataFrame -> option exn.
Variable future_error : string -> option exn.
Variable self : ImputationManager.

Local Abbreviation the_run :=
  (run gdf_empty NearestGaugeFinder_init find_nearest now loaded_reference_points
     loaded_gauge_stations to_parquet_error future_error self).
Local Abbreviation datasets_empty :=
  (gdf_empty loaded_reference_points || gdf_empty loaded_gauge_stations).
Local Abbreviation the_found_mappings region :=
  (found_mappings NearestGaugeFinder_init find_nearest loaded_reference_points
     loaded_gauge_stations region).
Local Abbreviation the_pairs region region_info ms :=
  (pairs (WeightCalculator.weigh_mapping
            (init_weight_calculator region region_info loaded_reference_points
               loaded_gauge_stations) <$> ms)).
Local Abbreviation joined_state_codes region_info :=
  (rbind (dict_get region_info "state_codes") (py_join ", ")).

(** X17: with every submitted future completed once and non-empty
    datasets, a region is in the mapping that [run] returns exactly when
    it is configured, the pool delivers its result, its state codes can
    be joined, the gauge finder yields mappings with at least one
    candidate gauge to record, the region has a [name], the sub-region
    cells do not mix missing values with labels, and writing its table
    does not fail. *)
Theorem run_saves_region_iff (as_completed : list Future -> list Future) (w : World)
    (region : string) :
  (forall l, as_completed l ≡ₚ l) ->
  datasets_empty = false ->
  exists output_files w',
    the_run as_completed w = (Ok output_files, w') /\
    (region ∈ dom output_files <->
     exists region_info joined ms name,
       region_config self !! region = Some region_info /\
       future_error region = None /\
       joined_state_codes region_info = Ok joined /\
       the_found_mappings region = Ok ms /\
       the_pairs region region_info ms <> [] /\
       region_info !! "name" = Some name /\
       ~ (VNone ∈ sub_region_cells (the_pairs region region_info ms) /\
          exists s, VStr s ∈ sub_region_cells (the_pairs region region_info ms)) /\
       to_parquet_error (frame_of region name (the_pairs region region_info ms)) = None).
Proof.
  intros Hperm Hempty.
  destruct (run_spec gdf_empty NearestGaugeFinder_init find_nearest now
              loaded_reference_points loaded_gauge_stations to_parquet_error
              future_error self as_completed w)
    as (files & w' & evs & Hrun & Hev & Hspec).
  rewrite Hempty in Hspec. destruct Hspec as (evs_c & _ & _ & _ & Hdom & _).
  exists files, w'. split; [exact Hrun|]. rewrite Hdom. split.
  - intros ([r info] & Hf & Hr & [d Hart]). simpl in Hr. subst r.
    apply (elem_of_completed self as_completed (region, info) Hperm) in Hf. simpl in Hf.
    apply artifact_some in Hart as (Hres & Hd & Hwr).
    unfold future_result in Hres. simpl in Hres.
    destruct (future_error region) eqn:Herr; [done|].
    destruct (proj1 (process_region_frame_with_rows NearestGaugeFinder_init find_nearest
                       region info loaded_reference_points loaded_gauge_stations [] d)
                (conj Hres Hd))
      as (joined & ms & name & Hj & Hfound & Hps & Hname & Hmixed & ->).
    by exists info, joined, ms, name.
  - intros (info & joined & ms & name & Hcfg & Herr & Hj & Hfound & Hps & Hname & Hmixed & Hwr).
    exists (region, info).
    split; [by apply (elem_of_completed self as_completed (region, info) Hperm)|].
    split; [done|]. exists (frame_of region name (the_pairs region info ms)).
    apply artifact_some.
    assert (Hres : (process_region NearestGaugeFinder_init find_nearest region info
                      loaded_reference_points loaded_gauge_stations []).1 =
                   Ok (Some (frame_of region name (the_pairs region info ms))) /\
                   pd.empty (frame_of region name (the_pairs region info ms)) = false).
    { apply process_region_frame_with_rows. by exists joined, ms, name. }
    destruct Hres as [Hres Hd]. split; [|done].
    unfold future_result. simpl. by rewrite Herr.
Qed.

(** X18: with every submitted future completed once and non-empty
    datasets, a configured region for which no candidate gauge is
    recorded is not in the result of [run], and the orchestrator tells
    the two cases apart: it logs nothing about the region when no mapping
    was found (the worker returned [None]), and the warning that there is
    no data to save when mappings were found (the worker returned the
    empty frame). *)
Theorem run_reports_empty_regions (as_completed : list Future -> list Future) (w : World)
    (region : string) (region_info : gmap string PyVal) (joined : string)
    (ms : list RawMapping) :
  (forall l, as_completed l ≡ₚ l) ->
  datasets_empty = false ->
  region_config self !! region = Some region_info ->
  future_error region = None ->
  joined_state_codes region_info = Ok joined ->
  the_found_mappings region = Ok ms ->
  the_pairs region region_info ms = [] ->
  exists output_files w' evs,
    the_run as_completed w = (Ok output_files, w') /\
    events w' = events w ++ evs /\
    output_files !! region = None /\
    filter (fun ev => about region ev = true) evs =
    match ms with
    | [] => []
    | _ :: _ => [EvLog WARNING (MsgNoData region)]
    end.
Proof.
  intros Hperm Hempty Hcfg Herr Hj Hfound Hps.
  destruct (run_about gdf_empty NearestGaugeFinder_init find_nearest now
              loaded_reference_points loaded_gauge_stations to_parquet_error
              future_error self as_completed w Hperm Hempty)
    as (files & w' & evs & Hrun & Hev & Hall).
  exists files, w', evs. split; [exact Hrun|]. split; [exact Hev|].
  assert (Hres : future_result NearestGaugeFinder_init find_nearest future_error
                   loaded_reference_points loaded_gauge_stations (region, region_info) =
                 Ok (match ms with
                     | [] => None
                     | _ :: _ => Some {| columns := []; rows := [] |}
                     end)).
  { unfold future_result. simpl. rewrite Herr.
    by apply (process_region_without_rows NearestGaugeFinder_init find_nearest region
                region_info loaded_reference_points loaded_gauge_stations joined ms []). }
  split.
  - destruct (run_spec gdf_empty NearestGaugeFinder_init find_nearest now
                loaded_reference_points loaded_gauge_stations to_parquet_error
                future_error self as_completed w)
      as (files' & w2 & evs' & Hrun' & _ & Hspec).
    rewrite Hrun in Hrun'. injection Hrun' as <- <-.
    rewrite Hempty in Hspec. destruct Hspec as (evs_c & _ & _ & _ & Hdom & _).
    apply not_elem_of_dom. rewrite Hdom. intros ([r info] & Hf & Hr & [d Hart]).
    simpl in Hr. subst r.
    apply (elem_of_completed self as_completed (region, info) Hperm) in Hf. simpl in Hf.
    rewrite Hcfg in Hf. injection Hf as <-.
    apply artifact_some in Hart as (Hres' & Hd & _).
    rewrite Hres in Hres'. destruct ms; [done|]. injection Hres' as <-. by vm_compute in Hd.
  - specialize (Hall region region_info Hcfg). rewrite Hres in Hall.
    unfold reported in Hall. by destruct ms.
Qed.

End RunOutcomes.

(* ===================================================================== *)
(** * Further properties of preprocessing/coastal_points.py *)
(* ===================================================================== *)

(** ** Integer parts *)






(** ** create_reference_points *)

Lemma Qcdiv_mult_cancel (x y : Qc) : y <> 0 -> x / y * y = x.
Proof. intros Hy. by field. Qed.

Lemma Qcdiv_diag (x : Qc) : x <> 0 -> x / x = 1.
Proof. intros Hx. by field. Qed.

Lemma Qcdiv_0_l (x : Qc) : 0 / x = 0.
Proof. unfold Qcdiv. apply Qcmult_0_l. Qed.

Lemma Qc_pos_neq_0 (x : Qc) : 0 < x -> x <> 0.
Proof. intros H ->. by apply Qclt_not_eq in H. Qed.


Section CreateReferencePoints.

Context {LineString Point : Type}.
Variable line_length : LineString -> Qc.
Variable interpolate : LineString -> Qc -> Point.

(** The points of a line for a number of points [n >= 2]. *)
Lemma points_of_count (line : LineString) (n : Z) :
  (2 <= n)%Z ->
  let points :=
    (fun i => interpolate line (Qc_of_Z i / Qc_of_Z (n - 1))) <$> seqZ 0 n in
  length points = Z.to_nat n /\
  head points = Some (interpolate line 0) /\
  last points = Some (interpolate line 1) /\
  forall k : nat,
    (k < length points)%nat ->
    points !! k = Some (interpolate line (Qc_of_Z (Z.of_nat k) / Qc_of_Z (n - 1))).
Proof.
  intros Hn points. subst points.
  assert (Hd : Qc_of_Z (n - 1) <> 0).
  { rewrite <- Z2Qc_inj_0. intros H%Z2Qc_inj. lia. }
  split; [by rewrite length_fmap, length_seqZ|]. split; [|split].
  - rewrite seqZ_cons by lia. simpl. by rewrite Z2Qc_inj_0, Qcdiv_0_l.
  - rewrite fmap_last, last_lookup, length_seqZ.
    rewrite lookup_seqZ_lt by lia. simpl. do 2 f_equal.
    replace (0 + Z.of_nat (Init.Nat.pred (Z.to_nat n)))%Z with (n - 1)%Z by lia.
    by apply Qcdiv_diag.
  - intros k. rewrite length_fmap, length_seqZ. intros Hk.
    rewrite list_lookup_fmap, lookup_seqZ_lt by lia. simpl. by rewrite Z.add_0_l.
Qed.


(** X20: the points are taken at the fractions [k / (n - 1)] of the line,
    [k = 0 .. n - 1] for [n] points: each fraction lies between 0 and 1,
    so no point is extrapolated beyond the line. *)
Theorem create_reference_points_fractions (line : LineString) (spacing : Qc)
    (points : list Point) (k : nat) :
  CoastalPoints.create_reference_points line_length interpolate line spacing = Some points ->
  (k < length points)%nat ->
  let fraction := Qc_of_Z (Z.of_nat k) / Qc_of_Z (Z.of_nat (length points) - 1) in
  points !! k = Some (interpolate line fraction) /\ 0 <= fraction <= 1.
Proof.
  unfold CoastalPoints.create_reference_points. case_bool_decide as Hs; [done|].
  cbv zeta. intros [= <-].
  set (n := Z.max 2 (CoastalPoints.py_int (line_length line / spacing))).
  assert (Hn : (2 <= n)%Z) by apply Z.le_max_l. clearbody n.
  destruct (points_of_count line n) as (Hlen & _ & _ & Hpoints); [lia|].
  cbv zeta in Hlen, Hpoints. rewrite Hlen. intros Hk.
  replace (Z.of_nat (Z.to_nat n)) with n by lia.
  split; [apply Hpoints; lia|].
  assert (Hd : 0 < Qc_of_Z (n - 1)) by (rewrite <- Z2Qc_inj_0; apply (proj1 (Z2Qc_inj_lt _ _)); lia).
  assert (Hd' : Qc_of_Z (n - 1) <> 0) by by apply Qc_pos_neq_0.
  split.
  - apply (Qcmult_le_mono_pos_r _ _ (Qc_of_Z (n - 1)) Hd).
    rewrite Qcmult_0_l, Qcdiv_mult_cancel by done.
    rewrite <- Z2Qc_inj_0. apply (proj1 (Z2Qc_inj_le _ _)). lia.
  - apply (Qcmult_le_mono_pos_r _ _ (Qc_of_Z (n - 1)) Hd).
    rewrite Qcmult_1_l, Qcdiv_mult_cancel by done.
    apply (proj1 (Z2Qc_inj_le _ _)). lia.
Qed.



End CreateReferencePoints.

(** ** The display name of a region *)








(* ===================================================================== *)
(** * The further properties on the sample run *)
(* ===================================================================== *)


(** X4 on the sample run, collected in reverse order. *)
Lemma run_stays_within_configuration_witness :
  exists output_files w' evs,
    run Sample.gdf_empty (Ok tt) (Sample.find_nearest [Sample.north_gauge]) Sample.now
      3%nat 4%nat Sample.no_error Sample.no_error Sample.manager reverse Sample.world =
    (Ok output_files, w') /\
    events w' = events Sample.world ++ evs /\
    dom output_files ⊆ dom (region_config Sample.manager) /\
    (length (written evs) <= size (region_config Sample.manager))%nat.
Proof.
  apply (run_stays_within_configuration Sample.gdf_empty (Ok tt)
           (Sample.find_nearest [Sample.north_gauge]) Sample.now 3%nat 4%nat
           Sample.no_error Sample.no_error Sample.manager reverse Sample.world).
  intros l. apply reverse_Permutation.
Defined.

(** X6 on the sample run, for Alaska, where the worker returns [None]:
    the orchestrator logs nothing about it. *)
Lemma run_reports_each_region_once_witness :
  exists output_files w' evs,
    run Sample.gdf_empty (Ok tt) (Sample.find_nearest [Sample.north_gauge]) Sample.now
      3%nat 4%nat Sample.no_error Sample.no_error Sample.manager reverse Sample.world =
    (Ok output_files, w') /\
    events w' = events Sample.world ++ evs /\
    reported Sample.no_error "alaska"
      (future_result (Ok tt) (Sample.find_nearest [Sample.north_gauge]) Sample.no_error
         3%nat 4%nat ("alaska", Sample.region_info))
      (filter (fun ev => about "alaska" ev = true) evs).
Proof.
  apply (run_reports_each_region_once Sample.gdf_empty (Ok tt)
           (Sample.find_nearest [Sample.north_gauge]) Sample.now 3%nat 4%nat
           Sample.no_error Sample.no_error Sample.manager reverse Sample.world
           "alaska" Sample.region_info).
  - intros l. apply reverse_Permutation.
  - by vm_compute.
  - by vm_compute.
Defined.

(** X7 on a region configured without state codes. *)
Lemma process_region_bad_state_codes_witness :
  process_region (Ok tt) (Sample.find_nearest [Sample.north_gauge]) "west_coast"
    (<["name" := VStr "West Coast"]> ∅) 3%nat 4%nat [] =
  (Ok None,
   [(INFO, MsgProcessingRegion "west_coast");
    (ERROR, MsgErrorProcessing "west_coast" (KeyError "state_codes"))]).
Proof.
  apply (process_region_bad_state_codes (Ok tt) (Sample.find_nearest [Sample.north_gauge])
           "west_coast" (<["name" := VStr "West Coast"]> ∅) 3%nat 4%nat
           (KeyError "state_codes") []).
  by vm_compute.
Defined.

(** X8 with a gauge finder that cannot be built. *)
Lemma process_region_finder_failure_witness :
  process_region (Raise (RuntimeError "no spatial index"))
    (Sample.find_nearest [Sample.north_gauge]) "west_coast" Sample.region_info
    3%nat 4%nat [] =
  (Ok None,
   [(INFO, MsgProcessingRegion "west_coast");
    (INFO, MsgStatesIncluded "CA, OR, WA");
    (ERROR, MsgErrorProcessing "west_coast" (RuntimeError "no spatial index"))]).
Proof.
  apply (process_region_finder_failure (Raise (RuntimeError "no spatial index"))
           (Sample.find_nearest [Sample.north_gauge]) "west_coast" Sample.region_info
           3%nat 4%nat "CA, OR, WA" (RuntimeError "no spatial index") []).
  - by vm_compute.
  - by vm_compute.
Defined.

(** X9 on Alaska, where the sample gauge finder finds nothing. *)
Lemma process_region_no_mappings_warned_witness :
  process_region (Ok tt) (Sample.find_nearest [Sample.north_gauge]) "alaska"
    Sample.region_info 3%nat 4%nat [] =
  (Ok None,
   [(INFO, MsgProcessingRegion "alaska");
    (INFO, MsgStatesIncluded "CA, OR, WA");
    (WARNING, MsgNoMappings "alaska")]).
Proof.
  apply (process_region_no_mappings_warned (Ok tt)
           (Sample.find_nearest [Sample.north_gauge]) "alaska" Sample.region_info
           3%nat 4%nat "CA, OR, WA" []).
  - by vm_compute.
  - by vm_compute.
Defined.

(** X10 with the only gauge found at 150 km, and no [name] configured. *)
Lemma process_region_no_candidate_witness :
  process_region (Ok tt) (Sample.find_nearest [Sample.far_gauge]) "west_coast"
    (<["state_codes" := VList ["CA"]]> ∅) 3%nat 4%nat [] =
  (Ok (Some {| columns := []; rows := [] |}),
   [(INFO, MsgProcessingRegion "west_coast"); (INFO, MsgStatesIncluded "CA")]).
Proof.
  apply (process_region_no_candidate (Ok tt) (Sample.find_nearest [Sample.far_gauge])
           "west_coast" (<["state_codes" := VList ["CA"]]> ∅) 3%nat 4%nat
           "CA" [Sample.point [Sample.far_gauge]] []).
  - by vm_compute.
  - by vm_compute.
  - done.
  - by vm_compute.
Defined.

(** X11 with a gauge at 2 m and no [name] configured. *)
Lemma process_region_missing_name_witness :
  process_region (Ok tt) (Sample.find_nearest [Sample.north_gauge]) "west_coast"
    (<["state_codes" := VList ["CA"]]> ∅) 3%nat 4%nat [] =
  (Ok None,
   [(INFO, MsgProcessingRegion "west_coast"); (INFO, MsgStatesIncluded "CA");
    (ERROR, MsgErrorProcessing "west_coast" (KeyError "name"))]).
Proof.
  apply (process_region_missing_name (Ok tt) (Sample.find_nearest [Sample.north_gauge])
           "west_coast" (<["state_codes" := VList ["CA"]]> ∅) 3%nat 4%nat
           "CA" [Sample.point [Sample.north_gauge]] []).
  - by vm_compute.
  - by vm_compute.
  - by vm_compute.
  - by vm_compute.
Defined.

(** X12 with a gauge labelled "north" and a gauge without a label, both
    within the cutoff. *)
Lemma process_region_mixed_labels_witness :
  exists summary,
    process_region (Ok tt)
      (Sample.find_nearest [Sample.north_gauge; Sample.unlabelled_gauge])
      "west_coast" Sample.region_info 3%nat 4%nat [] =
    (Ok None,
     [(INFO, MsgProcessingRegion "west_coast"); (INFO, MsgStatesIncluded "CA, OR, WA")] ++
     summary ++
     [(ERROR, MsgErrorProcessing "west_coast" (TypeError "'<' not supported"))]).
Proof.
  eexists.
  apply (process_region_mixed_labels (Ok tt)
           (Sample.find_nearest [Sample.north_gauge; Sample.unlabelled_gauge])
           "west_coast" Sample.region_info 3%nat 4%nat
           "CA, OR, WA" [Sample.point [Sample.north_gauge; Sample.unlabelled_gauge]]
           (VStr "West Coast")
           (WeightCalculator.weigh_mapping Sample.calculator
              (Sample.point [Sample.north_gauge; Sample.unlabelled_gauge]),
            WeightCalculator.gauge_weight Sample.calculator Sample.unlabelled_gauge)
           (WeightCalculator.weigh_mapping Sample.calculator
              (Sample.point [Sample.north_gauge; Sample.unlabelled_gauge]),
            WeightCalculator.gauge_weight Sample.calculator Sample.north_gauge)
           "north" []).
  - by vm_compute.
  - by vm_compute.
  - by vm_compute.
  - apply elem_of_pairs. split; [by apply list_elem_of_here|].
    apply list_elem_of_further, list_elem_of_here.
  - done.
  - apply elem_of_pairs. split; [by apply list_elem_of_here|].
    apply list_elem_of_here.
  - done.
Defined.

(** X14 on the sample: one gauge within the cutoff, one row, one county,
    one station. *)
Lemma process_region_totals_witness :
  exists df l',
    process_region (Ok tt) (Sample.find_nearest [Sample.north_gauge; Sample.far_gauge])
      "west_coast" Sample.region_info 3%nat 4%nat [] = (Ok (Some df), l') /\
    rows df <> [] /\
    exists ms out counties stations,
      found_mappings (Ok tt) (Sample.find_nearest [Sample.north_gauge; Sample.far_gauge])
        3%nat 4%nat "west_coast" = Ok ms /\
      l' = [] ++ out /\
      (INFO, MsgTotalMappings (length (rows df))) ∈ out /\
      (INFO, MsgTotalCounties counties) ∈ out /\ (1 <= counties <= length ms)%nat /\
      (INFO, MsgTotalStations stations) ∈ out /\ (1 <= stations <= length (rows df))%nat.
Proof.
  eexists _, _. split; [by vm_compute|]. split; [done|].
  apply (process_region_totals (Ok tt)
           (Sample.find_nearest [Sample.north_gauge; Sample.far_gauge])
           "west_coast" Sample.region_info 3%nat 4%nat []).
  - by vm_compute.
  - done.
Defined.

(** X16 on the sample, for the label "north". *)
Lemma process_region_sub_region_blocks_witness :
  exists df l',
    process_region (Ok tt) (Sample.find_nearest [Sample.north_gauge; Sample.far_gauge])
      "west_coast" Sample.region_info 3%nat 4%nat [] = (Ok (Some df), l') /\
    exists ms out,
      found_mappings (Ok tt) (Sample.find_nearest [Sample.north_gauge; Sample.far_gauge])
        3%nat 4%nat "west_coast" = Ok ms /\
      l' = [] ++ out /\
      ((INFO, MsgSubregion (VStr "north")) ∈ out <->
       exists s p,
         VStr "north" = VStr s /\ s <> "" /\
         p ∈ pairs (WeightCalculator.weigh_mapping
                      (init_weight_calculator "west_coast" Sample.region_info 3%nat 4%nat)
                      <$> ms) /\
         sub_region (gauge p.2) = Some s).
Proof.
  eexists _, _. split; [by vm_compute|].
  eapply (process_region_sub_region_blocks (Ok tt)
           (Sample.find_nearest [Sample.north_gauge; Sample.far_gauge])
           "west_coast" Sample.region_info 3%nat 4%nat [] _ _ (VStr "north")).
  by vm_compute.
Defined.

(** X17 on the sample run, for the west coast. *)
Lemma run_saves_region_iff_witness :
  exists output_files w',
    run Sample.gdf_empty (Ok tt) (Sample.find_nearest [Sample.north_gauge]) Sample.now
      3%nat 4%nat Sample.no_error Sample.no_error Sample.manager reverse Sample.world =
    (Ok output_files, w') /\
    ("west_coast" ∈ dom output_files <->
     exists region_info joined ms name,
       region_config Sample.manager !! "west_coast" = Some region_info /\
       Sample.no_error "west_coast" = None /\
       rbind (dict_get region_info "state_codes") (py_join ", ") = Ok joined /\
       found_mappings (Ok tt) (Sample.find_nearest [Sample.north_gauge]) 3%nat 4%nat
         "west_coast" = Ok ms /\
       pairs (WeightCalculator.weigh_mapping
                (init_weight_calculator "west_coast" region_info 3%nat 4%nat) <$> ms) <> [] /\
       region_info !! "name" = Some name /\
       ~ (VNone ∈ sub_region_cells
                    (pairs (WeightCalculator.weigh_mapping
                              (init_weight_calculator "west_coast" region_info 3%nat 4%nat)
                              <$> ms)) /\
          exists s,
            VStr s ∈ sub_region_cells
                       (pairs (WeightCalculator.weigh_mapping
                                 (init_weight_calculator "west_coast" region_info 3%nat 4%nat)
                                 <$> ms))) /\
       Sample.no_error
         (frame_of "west_coast" name
            (pairs (WeightCalculator.weigh_mapping
                      (init_weight_calculator "west_coast" region_info 3%nat 4%nat)
                      <$> ms))) = None).
Proof.
  apply (run_saves_region_iff Sample.gdf_empty (Ok tt)
           (Sample.find_nearest [Sample.north_gauge]) Sample.now 3%nat 4%nat
           Sample.no_error Sample.no_error Sample.manager reverse Sample.world "west_coast").
  - intros l. apply reverse_Permutation.
  - by vm_compute.
Defined.

(** X18 on a run whose gauge finder finds, for the west coast, one gauge
    at 150 km: the region is not in the result, and the orchestrator
    warns that there is no data to save. *)
Lemma run_reports_empty_regions_witness :
  exists output_files w' evs,
    run Sample.gdf_empty (Ok tt) (Sample.find_nearest [Sample.far_gauge]) Sample.now
      3%nat 4%nat Sample.no_error Sample.no_error Sample.manager reverse Sample.world =
    (Ok output_files, w') /\
    events w' = events Sample.world ++ evs /\
    output_files !! "west_coast" = None /\
    filter (fun ev => about "west_coast" ev = true) evs =
    [EvLog WARNING (MsgNoData "west_coast")].
Proof.
  apply (run_reports_empty_regions Sample.gdf_empty (Ok tt)
           (Sample.find_nearest [Sample.far_gauge]) Sample.now 3%nat 4%nat
           Sample.no_error Sample.no_error Sample.manager reverse Sample.world
           "west_coast" Sample.region_info "CA, OR, WA" [Sample.point [Sample.far_gauge]]).
  - intros l. apply reverse_Permutation.
  - by vm_compute.
  - by vm_compute.
  - done.
  - by vm_compute.
  - by vm_compute.
  - by vm_compute.
Defined.

(** X20 on a line of 12 km measured in metres from its start, with the
    default spacing: the second point is the end of the line. *)
Lemma create_reference_points_fractions_witness :
  exists points,
    CoastalPoints.create_reference_points (fun line : Qc => line)
      (fun line fraction => line * fraction) (Qc_of_Z 12000)
      CoastalPoints.POINT_SPACING_M = Some points /\
    (1 < length points)%nat /\
    points !! 1%nat =
      Some (Qc_of_Z 12000 *
            (Qc_of_Z (Z.of_nat 1) / Qc_of_Z (Z.of_nat (length points) - 1))) /\
    0 <= Qc_of_Z (Z.of_nat 1) / Qc_of_Z (Z.of_nat (length points) - 1) <= 1.
Proof.
  eexists. split; [by vm_compute|]. split; [simpl; lia|].
  eapply (create_reference_points_fractions (fun line : Qc => line)
           (fun line fraction => line * fraction) (Qc_of_Z 12000)
           CoastalPoints.POINT_SPACING_M _ 1%nat).
  - by vm_compute.
  - simpl. lia.
Defined.


